(** * EGX Auto-Trader dashboard: a shallow embedding of the view layer

  The development follows the three source files of the repository:
  - [types.ts]: the records delivered by the document store;
  - [App.tsx]: the top-level dashboard (store listeners, the portfolio
    summary, the derived ticker list, the actions panel);
  - [components/TradeVisualizer.tsx]: the price/trade overlay chart.

  Numbers.  A JavaScript [number] is an IEEE 754 binary64 value: the
  [spec_float] of the standard library at precision 53 and maximal
  exponent 1024, with its signed zeros, infinities and NaN, every
  operation rounding to nearest, ties to even.  [JS.toQ] gives the exact
  value of a finite number, for comparison with exact arithmetic.

  Exceptions.  Code that can raise a [TypeError] (a property read on
  [null] or [undefined]) is written in the [result] monad. *)

From Stdlib Require Import QArith ZArith String List Sorting.Sorted Permutation.
From Stdlib Require Import Floats.SpecFloat.
From stdpp Require Import base option list gmap strings sorting.

(* stdpp's string notations put [++] on strings in some scopes; lists are
 what this file appends. *)
Local Open Scope string_scope.
Local Open Scope list_scope.

(** ** JavaScript fragments *)

Module JS.

(** A computation that either returns or throws. *)
Inductive result (A : Type) : Type :=
| Ok (a : A)
| Throw (msg : string).
Arguments Ok {A} a.
Arguments Throw {A} msg.

#[export] Instance result_ret : MRet result := fun A a => Ok a.
#[export] Instance result_bind : MBind result := fun A B k r =>
  match r with
  | Ok a => k a
  | Throw m => Throw m
  end.

Definition TypeError : string := "TypeError".

(** [o.f] for a possibly-null [o]: throws on [null]. *)
Definition deref {A} (o : option A) : result A :=
  match o with
  | Some a => Ok a
  | None => Throw TypeError
  end.

(** The type [number]: binary64. *)
Definition number : Type := spec_float.
Definition prec : Z := 53.
Definition emax : Z := 1024.

(** The literals [0], [1], [100] and, for fixtures, any integer, rounded. *)
Definition ofZ (z : Z) : number := binary_normalize prec emax z 0 false.
Definition zero : number := S754_zero false.
Definition one : number := ofZ 1.
Definition hundred : number := ofZ 100.

(** [a + b], [a - b], [a * b], [a / b] *)
Definition add (a b : number) : number := SFadd prec emax a b.
Definition sub (a b : number) : number := SFsub prec emax a b.
Definition mul (a b : number) : number := SFmul prec emax a b.
Definition div (a b : number) : number := SFdiv prec emax a b.

(** [a >= b]: false when either is NaN. *)
Definition ge (a b : number) : bool := SFleb b a.

(** [Math.abs(a)] *)
Definition abs (a : number) : number := SFabs a.

(** A number as a condition: [0], [-0] and [NaN] are falsy. *)
Definition truthy (x : number) : bool :=
  match x with
  | S754_zero _ | S754_nan => false
  | _ => true
  end.

(** [x || d] on numbers. *)
Definition num_or (x d : number) : number := if truthy x then x else d.

(** [o?.f || d]: [undefined] is falsy as well. *)
Definition opt_or (x : option number) (d : number) : number :=
  match x with
  | Some v => num_or v d
  | None => d
  end.

(** Finite numbers, and the exact value of one (0 for the others). *)
Definition is_finite (x : number) : bool :=
  match x with
  | S754_zero _ | S754_finite _ _ _ => true
  | _ => false
  end.

Definition toQ (x : number) : Q :=
  match x with
  | S754_finite s m e => ((if s then Z.neg m else Z.pos m) # 1) * Qpower (2 # 1) e
  | _ => 0
  end.

(** A value that binary64 has: the mantissa and exponent in range. *)
Definition representable (x : number) : bool := valid_binary prec emax x.

(** [s.startsWith(p)] *)
Definition startsWith (s p : string) : bool := String.prefix p s.

End JS.

Import JS.

(** ** types.ts *)

(** [Timestamp] of the store client: seconds and nanoseconds since the epoch. *)
Module Timestamp.
Record t : Type := mk { seconds : Z; nanoseconds : Z }.
(** Chronological order, as the store's [orderBy] uses it. *)
Definition leb (a b : t) : bool :=
  (seconds a <? seconds b)%Z
  || ((seconds a =? seconds b)%Z && (nanoseconds a <=? nanoseconds b)%Z).
Definition le (a b : t) : Prop := leb a b = true.
End Timestamp.

Module PriceSymbol.
Record t : Type := mk {
  ticker : string;
  name : string;
  close : number;
  changePct : number;
  volume : number
}.
End PriceSymbol.

Module PriceBatch.
Record t : Type := mk {
  batchId : string;
  createdAt : Timestamp.t;
  symbols : list PriceSymbol.t
}.
End PriceBatch.

Inductive TradeActionType : Type := BUY | SELL.

Inductive TradeStatus : Type := PENDING | FILLED | CANCELLED.

Module TradeAction.
Record t : Type := mk {
  id : string;
  batchId : string;
  date : Timestamp.t;
  ticker : string;
  action : TradeActionType;
  shares : number;
  price : number;
  stopLoss : number;
  takeProfit : number;
  rationale : string;
  status : TradeStatus
}.
End TradeAction.

Module PortfolioState.
Record t : Type := mk {
  cash : number;
  equity : number;
  updatedAt : Timestamp.t;
  cashBufferPct : number
}.
End PortfolioState.

Module PortfolioPosition.
Record t : Type := mk {
  id : string;
  ticker : string;
  shares : number;
  avgPrice : number;
  marketPrice : number;
  unrealizedPnL : number
}.
End PortfolioPosition.

(** [doc.data()] of a document of the positions collection: the fields of a
    [PortfolioPosition], of which the document may or may not store [id]
    (the listeners take it from the document key). *)
Module PositionData.
Record t : Type := mk {
  id : option string;
  ticker : string;
  shares : number;
  avgPrice : number;
  marketPrice : number;
  unrealizedPnL : number
}.
End PositionData.

(** [doc.data()] of a document of the actions collection. *)
Module ActionData.
Record t : Type := mk {
  id : option string;
  batchId : string;
  date : Timestamp.t;
  ticker : string;
  action : TradeActionType;
  shares : number;
  price : number;
  stopLoss : number;
  takeProfit : number;
  rationale : string;
  status : TradeStatus
}.
End ActionData.

(** The spread [{ id: doc.id, ...doc.data() }] of the collection listeners:
    the fields of the data come after [id: doc.id], so an [id] that the
    document stores replaces the document key. *)
Definition position_withId (i : string) (d : PositionData.t) : PortfolioPosition.t :=
  PortfolioPosition.mk (default i (PositionData.id d)) (PositionData.ticker d)
    (PositionData.shares d) (PositionData.avgPrice d) (PositionData.marketPrice d)
    (PositionData.unrealizedPnL d).

Definition action_withId (i : string) (d : ActionData.t) : TradeAction.t :=
  TradeAction.mk (default i (ActionData.id d)) (ActionData.batchId d) (ActionData.date d)
    (ActionData.ticker d) (ActionData.action d) (ActionData.shares d) (ActionData.price d)
    (ActionData.stopLoss d) (ActionData.takeProfit d) (ActionData.rationale d)
    (ActionData.status d).

(** ** The document store client

    What the dashboard imports from the store client: references and
    queries, [onSnapshot] and the unsubscribe handle it returns.  The write
    half of the client ([setDoc], [deleteDoc]) is part of the model of the
    store so that "the dashboard never writes" is a statement about the
    dashboard and not about the model. *)

Module Firestore.

Inductive Direction : Type := asc | desc.

Inductive Reference : Type :=
| doc (path : list string)
| collection (path : list string)
| query (coll : list string) (where_ : option (string * string))
        (orderBy : string * Direction) (limit : option nat).

(** One document of a query snapshot: [doc.id] and [doc.data()]. *)
Record QueryDocumentSnapshot (A : Type) : Type := mkDoc { id : string; data : A }.
Arguments mkDoc {A} id data.
Arguments id {A} _.
Arguments data {A} _.

(** [snapshot.docs]; [snapshot.empty] is [docs.length === 0]. *)
Definition QuerySnapshot (A : Type) : Type := list (QueryDocumentSnapshot A).
Definition empty {A} (snapshot : QuerySnapshot A) : bool := (length snapshot =? 0)%nat.

(** A document snapshot: [Some d] when [exists()], with [data() = d]. *)
Definition DocumentSnapshot (A : Type) : Type := option A.
Definition exists_ {A} (docSnap : DocumentSnapshot A) : bool := bool_decide (is_Some docSnap).

(** The four kinds of record the backend keeps in the store. *)
Inductive Document : Type :=
| StateDoc (d : PortfolioState.t)
| PositionDoc (d : PositionData.t)
| BatchDoc (d : PriceBatch.t)
| ActionDoc (d : ActionData.t).

(** Client state: the documents, and the registered snapshot listeners
    (reference watched and callback) keyed by their handle. *)
Record t (Cb : Type) : Type := mk {
  documents : gmap string Document;
  listeners : gmap nat (Reference * Cb);
  nextId : nat
}.
Arguments mk {Cb} documents listeners nextId.
Arguments documents {Cb} _.
Arguments listeners {Cb} _.
Arguments nextId {Cb} _.

(** [onSnapshot(ref, cb)]: registers [cb] and returns the unsubscribe handle. *)
Definition onSnapshot {Cb} (ref : Reference) (cb : Cb) (fs : t Cb) : nat * t Cb :=
  (nextId fs,
   mk (documents fs) (<[nextId fs := (ref, cb)]> (listeners fs)) (S (nextId fs))).

(** Calling the handle returned by [onSnapshot]. *)
Definition unsubscribe {Cb} (h : nat) (fs : t Cb) : t Cb :=
  mk (documents fs) (delete h (listeners fs)) (nextId fs).

(** The write half of the client; nothing in the dashboard calls it. *)
Definition setDoc {Cb} (path : string) (d : Document) (fs : t Cb) : t Cb :=
  mk (<[path := d]> (documents fs)) (listeners fs) (nextId fs).

Definition deleteDoc {Cb} (path : string) (fs : t Cb) : t Cb :=
  mk (delete path (documents fs)) (listeners fs) (nextId fs).

End Firestore.

(** The snapshot callbacks of the two components, as closures: the tag
    names the arrow function, the arguments are the variables it captures. *)
Inductive Callback : Type :=
| AppPortfolioState
| AppPositions
| AppLatestBatch
| AppTradeActions
| TvPrices (selectedTicker : string)
| TvActions (selectedTicker : string) (prices : list PriceBatch.t).

(** ** App.tsx *)

Module App.

Import PortfolioState PortfolioPosition.

(** The [useState] cells of the component. *)
Record State : Type := mkState {
  portfolioState : option PortfolioState.t;
  portfolioPositions : list PortfolioPosition.t;
  latestBatch : option PriceBatch.t;
  tradeActions : list TradeAction.t;
  loading : bool
}.

Definition initialState : State := mkState None [] None [] true.

Definition setPortfolioState (v : option PortfolioState.t) (s : State) : State :=
  mkState v (portfolioPositions s) (latestBatch s) (tradeActions s) (loading s).
Definition setPortfolioPositions (v : list PortfolioPosition.t) (s : State) : State :=
  mkState (portfolioState s) v (latestBatch s) (tradeActions s) (loading s).
Definition setLatestBatch (v : option PriceBatch.t) (s : State) : State :=
  mkState (portfolioState s) (portfolioPositions s) v (tradeActions s) (loading s).
Definition setTradeActions (v : list TradeAction.t) (s : State) : State :=
  mkState (portfolioState s) (portfolioPositions s) (latestBatch s) v (loading s).
Definition setLoading (v : bool) (s : State) : State :=
  mkState (portfolioState s) (portfolioPositions s) (latestBatch s) (tradeActions s) v.

(** The local variables of one run of the subscription effect (lines 43-90). *)
Record Effect : Type := mkEffect {
  unsubscribers : list nat;
  loadedCount : nat
}.

Definition collectionsToWatch : list string :=
  ["portfolioState"; "portfolioPositions"; "prices"; "tradeActions"].

Definition checkAllLoaded (es : Effect * State) : Effect * State :=
  let e := mkEffect (unsubscribers es.1) (S (loadedCount es.1)) in
  if (length collectionsToWatch <=? loadedCount e)%nat
  then (e, setLoading false es.2)
  else (e, es.2).

(** Listener for the portfolio state document (lines 57-62).  [docSnap.data()]
    is [docSnap] itself, [None] being its [undefined]. *)
Definition onPortfolioState (docSnap : Firestore.DocumentSnapshot PortfolioState.t)
    (es : Effect * State) : result (Effect * State) :=
  let es1 := if Firestore.exists_ docSnap
             then (es.1, setPortfolioState docSnap es.2)
             else es in
  mret (checkAllLoaded es1).

(** Listener for the positions collection (lines 66-70). *)
Definition onPositions (snapshot : Firestore.QuerySnapshot PositionData.t)
    (es : Effect * State) : result (Effect * State) :=
  let positions :=
    map (fun d => position_withId (Firestore.id d) (Firestore.data d)) snapshot in
  mret (checkAllLoaded (es.1, setPortfolioPositions positions es.2)).

(** Listener for the latest price batch (lines 74-79). *)
Definition onLatestBatch (snapshot : Firestore.QuerySnapshot PriceBatch.t)
    (es : Effect * State) : result (Effect * State) :=
  es1 ← (if negb (Firestore.empty snapshot)
         then d ← deref (snapshot !! 0%nat);
              mret (es.1, setLatestBatch (Some (Firestore.data d)) es.2)
         else mret es);
  mret (checkAllLoaded es1).

(** Listener for the recent trade actions (lines 83-87). *)
Definition onTradeActions (snapshot : Firestore.QuerySnapshot ActionData.t)
    (es : Effect * State) : result (Effect * State) :=
  let actions :=
    map (fun d => action_withId (Firestore.id d) (Firestore.data d)) snapshot in
  mret (checkAllLoaded (es.1, setTradeActions actions es.2)).

Definition portfolioStateDocRef : Firestore.Reference :=
  Firestore.doc ["portfolio"; "state"].
Definition positionsCollRef : Firestore.Reference :=
  Firestore.collection ["portfolio"; "state"; "positions"].
Definition pricesQuery : Firestore.Reference :=
  Firestore.query ["prices"] None ("createdAt", Firestore.desc) (Some 1%nat).
Definition actionsQuery : Firestore.Reference :=
  Firestore.query ["actions"] None ("date", Firestore.desc) (Some 20%nat).

(** The body of the subscription effect (lines 43-88): four listeners, their
    handles pushed on [unsubscribers] in order. *)
Definition useEffect (fs : Firestore.t Callback) : Effect * Firestore.t Callback :=
  let unsubscribers : list nat := [] in
  let '(u, fs) := Firestore.onSnapshot portfolioStateDocRef AppPortfolioState fs in
  let unsubscribers := unsubscribers ++ [u] in
  let '(u, fs) := Firestore.onSnapshot positionsCollRef AppPositions fs in
  let unsubscribers := unsubscribers ++ [u] in
  let '(u, fs) := Firestore.onSnapshot pricesQuery AppLatestBatch fs in
  let unsubscribers := unsubscribers ++ [u] in
  let '(u, fs) := Firestore.onSnapshot actionsQuery AppTradeActions fs in
  let unsubscribers := unsubscribers ++ [u] in
  (mkEffect unsubscribers 0, fs).

(** The cleanup the effect returns (line 89):
    [unsubscribers.forEach(unsub => unsub())]. *)
Definition cleanup (e : Effect) (fs : Firestore.t Callback) : Firestore.t Callback :=
  foldl (fun fs unsub => Firestore.unsubscribe unsub fs) fs (unsubscribers e).

(** The three values of the summary [useMemo] (lines 92-100). *)
Record Summary : Type := mkSummary {
  portfolioValue : number;
  dailyPnL : number;
  dailyPnLPct : number
}.

(** [(portfolioValue-totalPnl || 1)], the divisor of line 99. *)
Definition pnlDivisor (portfolioValue totalPnl : number) : number :=
  JS.num_or (JS.sub portfolioValue totalPnl) JS.one.

Definition summary (portfolioState : option PortfolioState.t)
    (portfolioPositions : list PortfolioPosition.t) : result Summary :=
  if negb (bool_decide (is_Some portfolioState))
     || (length portfolioPositions =? 0)%nat
  then mret (mkSummary (JS.opt_or (cash <$> portfolioState) JS.zero) JS.zero JS.zero)
  else
    st ← deref portfolioState;
    let equity :=
      foldl (fun acc pos => JS.add acc (JS.mul (shares pos) (marketPrice pos)))
            JS.zero portfolioPositions in
    let portfolioValue := JS.add (cash st) equity in
    let totalPnl :=
      foldl (fun acc pos => JS.add acc (unrealizedPnL pos)) JS.zero portfolioPositions in
    mret (mkSummary portfolioValue totalPnl
            (JS.mul (JS.div totalPnl (pnlDivisor portfolioValue totalPnl)) JS.hundred)).

(** [egx30] (lines 102-104). *)
Definition egx30 (latestBatch : option PriceBatch.t) : option PriceSymbol.t :=
  b ← latestBatch;
  List.find (fun s => String.eqb (PriceSymbol.ticker s) "EGX30") (PriceBatch.symbols b).

(** The order of [Array.prototype.sort] without a comparator: strings by
    code unit (tickers are ASCII). *)
Definition string_le (a b : string) : Prop := String.leb a b = true.
#[export] Instance string_le_dec : RelDecision string_le.
Proof. intros a b. unfold string_le. apply _. Defined.

(** [availableTickers] (lines 106-113). *)
Definition availableTickers (latestBatch : option PriceBatch.t) : list string :=
  match latestBatch with
  | None => []
  | Some b =>
      merge_sort string_le
        (List.filter (fun t => negb (JS.startsWith t "EGX"))
           (map PriceSymbol.ticker (PriceBatch.symbols b)))
  end.

(** The "Recent Trading Actions" panel (lines 172-217): five skeleton rows
    or the table with one row per action, followed by the empty notice. *)
Inductive PanelBody : Type :=
| Skeletons (n : nat)
| Table (rows : list TradeAction.t).

Record ActionsPanel : Type := mkPanel {
  body : PanelBody;
  emptyNotice : bool
}.

Definition actionsPanel (loading : bool) (tradeActions : list TradeAction.t) : ActionsPanel :=
  mkPanel
    (if loading && (length tradeActions =? 0)%nat then Skeletons 5 else Table tradeActions)
    (negb loading && (length tradeActions =? 0)%nat).

(** [formatTimestamp] (lines 13-21): ["N/A"] without a timestamp, else the
    locale's rendering of it. *)
Definition formatTimestamp (toLocaleString : Timestamp.t -> string)
    (timestamp : option Timestamp.t) : string :=
  match timestamp with
  | None => "N/A"
  | Some t => toLocaleString t
  end.

End App.

(** ** components/TradeVisualizer.tsx *)

Module TradeVisualizer.

Record ChartDataPoint : Type := mkPoint {
  date : string;
  close : number;
  trade : option TradeAction.t
}.

(** [TradeMarker] (lines 19-34): nothing without a trade, else a green
    upward triangle for BUY and a red downward one for SELL. *)
Inductive Marker : Type := UpTriangle | DownTriangle.

Definition TradeMarker (payload : ChartDataPoint) : option Marker :=
  match trade payload with
  | None => None
  | Some t =>
      Some (match TradeAction.action t with BUY => UpTriangle | SELL => DownTriangle end)
  end.

Record State : Type := mkState {
  selectedTicker : string;
  chartData : list ChartDataPoint;
  loading : bool
}.

Definition initialState : State := mkState "" [] false.

Definition setSelectedTicker (v : string) (s : State) : State :=
  mkState v (chartData s) (loading s).
Definition setChartData (v : list ChartDataPoint) (s : State) : State :=
  mkState (selectedTicker s) v (loading s).
Definition setLoading (v : bool) (s : State) : State :=
  mkState (selectedTicker s) (chartData s) v.

(** The default-ticker effect (lines 61-66). *)
Definition defaultTicker (availableTickers : list string) (s : State) : State :=
  if (0 <? length availableTickers)%nat && String.eqb (selectedTicker s) ""
  then match availableTickers !! 0%nat with
       | Some t => setSelectedTicker t s
       | None => s
       end
  else s.

(** [handleTickerChange] (lines 122-124). *)
Definition handleTickerChange (value : string) (s : State) : State :=
  setSelectedTicker value s.

Definition pricesQuery : Firestore.Reference :=
  Firestore.query ["prices"] None ("createdAt", Firestore.desc) (Some 100%nat).
Definition actionsQuery (selectedTicker : string) : Firestore.Reference :=
  Firestore.query ["actions"] (Some ("ticker", selectedTicker))
    ("date", Firestore.asc) None.

(** [new Map(actions.map(a => [a.batchId, a]))]: the constructor sets the
    entries in order, a later entry replacing an earlier one with its key. *)
Definition actionsByBatchId (actions : list TradeAction.t) : gmap string TradeAction.t :=
  foldl (fun m a => <[TradeAction.batchId a := a]> m) ∅ actions.

Section Locale.

(** [new Date(ms).toLocaleTimeString('en-US', { hour: '2-digit', minute:
    '2-digit' })]: the label depends on the time zone of the browser. *)
Variable toLocaleTimeString : Z -> string.

(** The arrow function mapped over [prices] (lines 97-106); [None] is its [null]. *)
Definition chartPoint (selectedTicker : string) (byId : gmap string TradeAction.t)
    (batch : PriceBatch.t) : option ChartDataPoint :=
  match List.find (fun s => String.eqb (PriceSymbol.ticker s) selectedTicker)
                  (PriceBatch.symbols batch) with
  | None => None
  | Some symbolData =>
      Some (mkPoint
              (toLocaleTimeString (Timestamp.seconds (PriceBatch.createdAt batch) * 1000)%Z)
              (PriceSymbol.close symbolData)
              (byId !! PriceBatch.batchId batch))
  end.

(** The merge (lines 93-108): map, drop the nulls, reverse. *)
Definition mergedData (selectedTicker : string) (prices : list PriceBatch.t)
    (actions : list TradeAction.t) : list ChartDataPoint :=
  let byId := actionsByBatchId actions in
  reverse (omap id (map (chartPoint selectedTicker byId) prices)).

(** The nested actions listener (lines 90-112). *)
Definition onActions (selectedTicker : string) (prices : list PriceBatch.t)
    (actionSnapshot : Firestore.QuerySnapshot ActionData.t) (s : State) : State :=
  let actions :=
    map (fun d => action_withId (Firestore.id d) (Firestore.data d)) actionSnapshot in
  setLoading false (setChartData (mergedData selectedTicker prices actions) s).

End Locale.

(** The prices listener (lines 87-116): subscribes the nested listener and
    returns [() => unsubscribeActions()], here the handle to call. *)
Definition onPrices (selectedTicker : string)
    (priceSnapshot : Firestore.QuerySnapshot PriceBatch.t)
    (fs : Firestore.t Callback) : nat * Firestore.t Callback :=
  let prices := map Firestore.data priceSnapshot in
  Firestore.onSnapshot (actionsQuery selectedTicker) (TvActions selectedTicker prices) fs.

(** The local variable of one run of the subscription effect (lines 68-120). *)
Record Effect : Type := mkEffect { unsubscribePrices : nat }.

(** The body of the subscription effect; [None] is the early [return]
    without a cleanup. *)
Definition useEffect (s : State) (fs : Firestore.t Callback)
    : option Effect * State * Firestore.t Callback :=
  if String.eqb (selectedTicker s) "" then (None, s, fs)
  else
    let s := setLoading true s in
    let '(u, fs) := Firestore.onSnapshot pricesQuery (TvPrices (selectedTicker s)) fs in
    (Some (mkEffect u), s, fs).

(** The cleanup the effect returns (line 119). *)
Definition cleanup (e : Effect) (fs : Firestore.t Callback) : Firestore.t Callback :=
  Firestore.unsubscribe (unsubscribePrices e) fs.

(** What the component renders (lines 126-184): the notice "No stock data
    available to visualize", or the ticker select and the chart with its
    two overlays ("Loading Chart Data..." and "No price history found"). *)
Inductive View : Type :=
| NoStockData
| Chart (options : list string) (value : string)
        (loadingOverlay noHistoryOverlay : bool) (data : list ChartDataPoint).

Definition render (availableTickers : list string) (s : State) : View :=
  if (length availableTickers =? 0)%nat then NoStockData
  else Chart availableTickers (selectedTicker s) (loading s)
         (negb (loading s) && (length (chartData s) =? 0)%nat) (chartData s).

End TradeVisualizer.

(** ** The dashboard against the store

    The two components and the store client as one transition system.  The
    events are the calls the React runtime and the store client make into
    the code: effect bodies and their cleanups, the select's change handler,
    and the delivery of a snapshot to a registered listener. *)

Module Dashboard.

Record World : Type := mk {
  firestore : Firestore.t Callback;
  appState : App.State;
  appEffect : option App.Effect;
  tvState : TradeVisualizer.State;
  tvEffect : option TradeVisualizer.Effect
}.

Definition initial (documents : gmap string Firestore.Document) : World :=
  mk (Firestore.mk documents ∅ 0) App.initialState None
     TradeVisualizer.initialState None.

Inductive Snapshot : Type :=
| StateSnapshot (docSnap : Firestore.DocumentSnapshot PortfolioState.t)
| PositionsSnapshot (snapshot : Firestore.QuerySnapshot PositionData.t)
| PricesSnapshot (snapshot : Firestore.QuerySnapshot PriceBatch.t)
| ActionsSnapshot (snapshot : Firestore.QuerySnapshot ActionData.t).

Inductive Event : Type :=
| AppEffect
| AppCleanup
| TvDefaultTicker
| TvTickerChange (value : string)
| TvEffect
| TvCleanup
| Deliver (listener : nat) (snap : Snapshot).

(** A callback of [App]: an exception leaves the state cells as they were. *)
Definition runApp (h : App.Effect * App.State -> result (App.Effect * App.State))
    (w : World) : World :=
  match appEffect w with
  | None => w
  | Some e =>
      match h (e, appState w) with
      | Ok es => mk (firestore w) es.2 (Some es.1) (tvState w) (tvEffect w)
      | Throw _ => w
      end
  end.

Section Locale.

Variable toLocaleTimeString : Z -> string.

(** The store client calls the listener with the snapshot of its own query
    and drops whatever the callback returns. *)
Definition deliver (listener : nat) (snap : Snapshot) (w : World) : World :=
  match Firestore.listeners (firestore w) !! listener with
  | None => w
  | Some (_, cb) =>
      match cb, snap with
      | AppPortfolioState, StateSnapshot d => runApp (App.onPortfolioState d) w
      | AppPositions, PositionsSnapshot q => runApp (App.onPositions q) w
      | AppLatestBatch, PricesSnapshot q => runApp (App.onLatestBatch q) w
      | AppTradeActions, ActionsSnapshot q => runApp (App.onTradeActions q) w
      | TvPrices t, PricesSnapshot q =>
          let '(_, fs) := TradeVisualizer.onPrices t q (firestore w) in
          mk fs (appState w) (appEffect w) (tvState w) (tvEffect w)
      | TvActions t prices, ActionsSnapshot q =>
          mk (firestore w) (appState w) (appEffect w)
             (TradeVisualizer.onActions toLocaleTimeString t prices q (tvState w))
             (tvEffect w)
      | _, _ => w
      end
  end.

Definition step (w : World) (ev : Event) : World :=
  match ev with
  | AppEffect =>
      let '(e, fs) := App.useEffect (firestore w) in
      mk fs (appState w) (Some e) (tvState w) (tvEffect w)
  | AppCleanup =>
      match appEffect w with
      | None => w
      | Some e =>
          mk (App.cleanup e (firestore w)) (appState w) None (tvState w) (tvEffect w)
      end
  | TvDefaultTicker =>
      mk (firestore w) (appState w) (appEffect w)
         (TradeVisualizer.defaultTicker
            (App.availableTickers (App.latestBatch (appState w))) (tvState w))
         (tvEffect w)
  | TvTickerChange value =>
      mk (firestore w) (appState w) (appEffect w)
         (TradeVisualizer.handleTickerChange value (tvState w)) (tvEffect w)
  | TvEffect =>
      let '(e, s, fs) := TradeVisualizer.useEffect (tvState w) (firestore w) in
      mk fs (appState w) (appEffect w) s e
  | TvCleanup =>
      match tvEffect w with
      | None => w
      | Some e =>
          mk (TradeVisualizer.cleanup e (firestore w)) (appState w) (appEffect w)
             (tvState w) None
      end
  | Deliver listener snap => deliver listener snap w
  end.

Definition run (w : World) (evs : list Event) : World := foldl step w evs.

End Locale.

End Dashboard.

(** ** components/Stat.tsx *)

Module Stat.

(** The props.  An omitted prop is [None]. *)
Record Props : Type := mkProps {
  label : string;
  value : string;
  change : option number;
  changeIsPositive : option bool;
  isLoading : option bool
}.

Definition changeColor (changeIsPositive : option bool) : string :=
  match changeIsPositive with
  | None => "text-gray-400"
  | Some true => "text-green-400"
  | Some false => "text-red-400"
  end.

Definition changeSymbol (changeIsPositive : option bool) : string :=
  match changeIsPositive with
  | None => ""
  | Some true => "▲"
  | Some false => "▼"
  end.

(** The change paragraph: its colour class, its symbol and the text of
    [Math.abs(change).toFixed(2)], which a percent sign follows. *)
Record ChangeLine : Type := mkLine {
  color : string;
  symbol : string;
  percent : string
}.

(** The pulsing placeholder, or the value with the optional change line. *)
Inductive Body : Type :=
| Placeholder
| Shown (value : string) (changeLine : option ChangeLine).

Record View : Type := mkView {
  heading : string;
  body : Body
}.

Section Format.

(** [n.toFixed(2)] *)
Variable toFixed2 : number -> string.

Definition render (p : Props) : View :=
  mkView (label p)
    (if default false (isLoading p) then Placeholder
     else Shown (value p)
            (match change p with
             | None => None
             | Some c =>
                 Some (mkLine (changeColor (changeIsPositive p))
                              (changeSymbol (changeIsPositive p))
                              (toFixed2 (JS.abs c)))
             end)).

End Format.

End Stat.

(** ** App.tsx: the KPI tiles (lines 134-151) *)

Module Tiles.

Section Format.

(** [formatCurrency] (lines 9-11) is [Intl.NumberFormat] for en-EG and EGP. *)
Variable formatCurrency : number -> string.
Variable toFixed2 : number -> string.

Definition portfolioValueTile (s : App.State) : result Stat.Props :=
  r ← App.summary (App.portfolioState s) (App.portfolioPositions s);
  mret (Stat.mkProps "Portfolio Value"
          (formatCurrency (App.portfolioValue r))
          (Some (App.dailyPnLPct r))
          (Some (JS.ge (App.dailyPnL r) JS.zero))
          (Some (App.loading s))).

Definition equityTile (s : App.State) : Stat.Props :=
  Stat.mkProps "Equity"
    (formatCurrency (from_option PortfolioState.equity JS.zero (App.portfolioState s)))
    None None (Some (App.loading s)).

Definition cashTile (s : App.State) : Stat.Props :=
  Stat.mkProps "Cash"
    (formatCurrency (from_option PortfolioState.cash JS.zero (App.portfolioState s)))
    None None (Some (App.loading s)).

Definition indexTile (s : App.State) : Stat.Props :=
  let egx30 := App.egx30 (App.latestBatch s) in
  Stat.mkProps "EGX30 Index"
    (match egx30 with
     | Some q => toFixed2 (PriceSymbol.close q)
     | None => "N/A"
     end)
    (PriceSymbol.changePct <$> egx30)
    ((fun q => JS.ge (PriceSymbol.changePct q) JS.zero) <$> egx30)
    (Some (App.loading s || negb (bool_decide (is_Some egx30)))).

End Format.

End Tiles.

(** ** Runs of the listeners of [App] *)

Module AppRun.

(** The listener of [App] that a snapshot of each kind goes to. *)
Definition callback (snap : Dashboard.Snapshot) (es : App.Effect * App.State)
    : result (App.Effect * App.State) :=
  match snap with
  | Dashboard.StateSnapshot d => App.onPortfolioState d es
  | Dashboard.PositionsSnapshot q => App.onPositions q es
  | Dashboard.PricesSnapshot q => App.onLatestBatch q es
  | Dashboard.ActionsSnapshot q => App.onTradeActions q es
  end.

(** The snapshots handled one after the other; an exception ends the run. *)
Definition callbacks (snaps : list Dashboard.Snapshot) (es : App.Effect * App.State)
    : result (App.Effect * App.State) :=
  foldl (fun r snap => es ← r; callback snap es) (Ok es) snaps.

(** The state document of a snapshot that has one. *)
Definition stateOf (snap : Dashboard.Snapshot) : option PortfolioState.t :=
  match snap with
  | Dashboard.StateSnapshot d => d
  | _ => None
  end.

(** The positions of a positions snapshot, as the listener stores them. *)
Definition positionsOf (snap : Dashboard.Snapshot) : option (list PortfolioPosition.t) :=
  match snap with
  | Dashboard.PositionsSnapshot q =>
      Some (map (fun d => position_withId (Firestore.id d) (Firestore.data d)) q)
  | _ => None
  end.

(** The first batch of a prices snapshot that is not empty. *)
Definition batchOf (snap : Dashboard.Snapshot) : option PriceBatch.t :=
  match snap with
  | Dashboard.PricesSnapshot q => Firestore.data <$> head q
  | _ => None
  end.

(** The actions of an actions snapshot, as the listener stores them. *)
Definition actionsOf (snap : Dashboard.Snapshot) : option (list TradeAction.t) :=
  match snap with
  | Dashboard.ActionsSnapshot q =>
      Some (map (fun d => action_withId (Firestore.id d) (Firestore.data d)) q)
  | _ => None
  end.

End AppRun.

(** ** The words of the specification *)

(** The sum of a list of rationals. *)
Definition Qsum (l : list Q) : Q := fold_right Qplus 0%Q l.

(** "the sum of each position's shares times market price", exactly. *)
Definition positionsValue (ps : list PortfolioPosition.t) : Q :=
  Qsum (map (fun p => JS.toQ (PortfolioPosition.shares p)
                      * JS.toQ (PortfolioPosition.marketPrice p))%Q ps).

(** "invested value": the sum over positions of shares times average cost,
    exactly. *)
Definition investedValue (ps : list PortfolioPosition.t) : Q :=
  Qsum (map (fun p => JS.toQ (PortfolioPosition.shares p)
                      * JS.toQ (PortfolioPosition.avgPrice p))%Q ps).

(** "total unrealized P/L", exactly. *)
Definition totalUnrealizedPnL (ps : list PortfolioPosition.t) : Q :=
  Qsum (map (fun p => JS.toQ (PortfolioPosition.unrealizedPnL p)) ps).

(** The sum of a list of numbers as [reduce] computes it: from [0], left to
    right, every addition rounded. *)
Definition floatSum (l : list number) : number := foldl JS.add JS.zero l.

(** The market values and the unrealized P/L of the positions, as numbers. *)
Definition marketValues (ps : list PortfolioPosition.t) : list number :=
  map (fun p => JS.mul (PortfolioPosition.shares p) (PortfolioPosition.marketPrice p)) ps.

Definition unrealizedPnLs (ps : list PortfolioPosition.t) : list number :=
  map PortfolioPosition.unrealizedPnL ps.

(** "a batch containing the selected ticker" *)
Definition hasTicker (selectedTicker : string) (b : PriceBatch.t) : bool :=
  existsb (fun s => String.eqb (PriceSymbol.ticker s) selectedTicker) (PriceBatch.symbols b).

(** The batches that contain the ticker, in the reverse of the order of delivery. *)
Definition chartBatches (selectedTicker : string) (prices : list PriceBatch.t)
    : list PriceBatch.t :=
  reverse (List.filter (hasTicker selectedTicker) prices).

(** The actions generated from a batch, in the order of the action list. *)
Definition actionsOfBatch (b : PriceBatch.t) (actions : list TradeAction.t)
    : list TradeAction.t :=
  List.filter (fun a => String.eqb (TradeAction.batchId a) (PriceBatch.batchId b)) actions.

(** Newest first, as [orderBy('createdAt', 'desc')] delivers the batches. *)
Definition newestFirst (prices : list PriceBatch.t) : Prop :=
  StronglySorted
    (fun a b => Timestamp.le (PriceBatch.createdAt b) (PriceBatch.createdAt a)) prices.

Definition oldestFirst (prices : list PriceBatch.t) : Prop :=
  StronglySorted
    (fun a b => Timestamp.le (PriceBatch.createdAt a) (PriceBatch.createdAt b)) prices.

(** ** Fixtures *)

Module Fixture.

Definition t0 : Timestamp.t := Timestamp.mk 1700000000 0.
Definition t1 : Timestamp.t := Timestamp.mk 1700000060 0.

Definition state : PortfolioState.t :=
  PortfolioState.mk (JS.ofZ 100) (JS.ofZ 20) t0 (JS.div (JS.ofZ 1) (JS.ofZ 10)).

Definition comi : PortfolioPosition.t :=
  PortfolioPosition.mk "COMI" "COMI" (JS.ofZ 1) (JS.ofZ 10) (JS.ofZ 20) (JS.ofZ 10).

Definition comiData : PositionData.t :=
  PositionData.mk None "COMI" (JS.ofZ 1) (JS.ofZ 10) (JS.ofZ 20) (JS.ofZ 10).

(** A cash of 1e16 and one share quoted at 1: the sum is not a double. *)
Definition bigCash : PortfolioState.t :=
  PortfolioState.mk (JS.ofZ (10 ^ 16)) JS.zero t0 JS.zero.

Definition oneShare : PortfolioPosition.t :=
  PortfolioPosition.mk "COMI" "COMI" (JS.ofZ 1) (JS.ofZ 1) (JS.ofZ 1) JS.zero.

(** No cash and two positions whose unrealized P/L is 2^1023 each. *)
Definition noCash : PortfolioState.t := PortfolioState.mk JS.zero JS.zero t0 JS.zero.

Definition hugePnL : PortfolioPosition.t :=
  PortfolioPosition.mk "COMI" "COMI" (JS.ofZ 1) (JS.ofZ 1) (JS.ofZ 1) (JS.ofZ (2 ^ 1023)).

Definition index : PriceSymbol.t :=
  PriceSymbol.mk "EGX30" "Index" (JS.ofZ 20000) (JS.ofZ (-1)) JS.zero.

Definition quote : PriceSymbol.t :=
  PriceSymbol.mk "COMI" "CIB" (JS.ofZ 50) (JS.ofZ 1) (JS.ofZ 1000).

Definition batchWithout : PriceBatch.t := PriceBatch.mk "b0" t0 [].
Definition batchOld : PriceBatch.t := PriceBatch.mk "b1" t0 [quote].
Definition batchNew : PriceBatch.t := PriceBatch.mk "b2" t1 [quote].

Definition buy : TradeAction.t :=
  TradeAction.mk "a1" "b1" t0 "COMI" BUY (JS.ofZ 1) (JS.ofZ 50) (JS.ofZ 45) (JS.ofZ 60)
    "breakout" FILLED.
Definition sell : TradeAction.t :=
  TradeAction.mk "a2" "b1" t1 "COMI" SELL (JS.ofZ 1) (JS.ofZ 50) (JS.ofZ 45) (JS.ofZ 60)
    "stop" FILLED.

Definition clock : Z -> string := fun _ => "10:00 AM".

Definition appEffect : App.Effect := App.mkEffect [0; 1; 2; 3]%nat 4.
Definition appState : App.State :=
  App.mkState (Some state) [comi] (Some batchNew) [buy] false.

End Fixture.

(** ** The fixtures, evaluated *)

Example summary_fixture :
  App.summary (Some Fixture.state) [Fixture.comi]
  = Ok (App.mkSummary (JS.ofZ 120) (JS.ofZ 10)
          (JS.mul (JS.div (JS.ofZ 10) (JS.ofZ 110)) (JS.ofZ 100))).
Proof. vm_compute. reflexivity. Qed.

Example summary_fixture_no_positions :
  App.summary (Some Fixture.state) []
  = Ok (App.mkSummary (JS.ofZ 100) JS.zero JS.zero).
Proof. vm_compute. reflexivity. Qed.

(** 0.1 + 0.2 + 0.3 as [reduce] adds them: 0.6000000000000001. *)
Example floatSum_fixture :
  floatSum [JS.div (JS.ofZ 1) (JS.ofZ 10); JS.div (JS.ofZ 2) (JS.ofZ 10);
            JS.div (JS.ofZ 3) (JS.ofZ 10)]
  = S754_finite false 5404319552844596 (-53).
Proof. vm_compute. reflexivity. Qed.

(** Three shares at 0.1 with a P/L of 0.3 and no cash: the divisor is the
    rounding error of 3 * 0.1, and the percentage 540431955284459520. *)
Example summary_fixture_rounding :
  App.summary (Some Fixture.noCash)
    [PortfolioPosition.mk "COMI" "COMI" (JS.ofZ 3) JS.zero
       (JS.div (JS.ofZ 1) (JS.ofZ 10)) (JS.div (JS.ofZ 3) (JS.ofZ 10))]
  = Ok (App.mkSummary (S754_finite false 5404319552844596 (-54))
          (S754_finite false 5404319552844595 (-54))
          (JS.ofZ 540431955284459520)).
Proof. vm_compute. reflexivity. Qed.

(** Two shares quoted at 2^1023: the portfolio value is Infinity. *)
Example summary_fixture_overflow :
  App.summary (Some Fixture.noCash)
    [PortfolioPosition.mk "COMI" "COMI" (JS.ofZ 1) JS.zero (JS.ofZ (2 ^ 1023)) JS.zero;
     PortfolioPosition.mk "COMI" "COMI" (JS.ofZ 1) JS.zero (JS.ofZ (2 ^ 1023)) JS.zero]
  = Ok (App.mkSummary (S754_infinity false) JS.zero JS.zero).
Proof. vm_compute. reflexivity. Qed.

(** A document that stores its own [id] keeps it. *)
Example position_withId_fixture :
  PortfolioPosition.id (position_withId "COMI" Fixture.comiData) = "COMI"
  /\ PortfolioPosition.id
       (position_withId "key"
          (PositionData.mk (Some "stored") "COMI" JS.zero JS.zero JS.zero JS.zero))
     = "stored".
Proof. split; reflexivity. Qed.

Example mergedData_fixture :
  TradeVisualizer.mergedData Fixture.clock "COMI"
    [Fixture.batchNew; Fixture.batchWithout; Fixture.batchOld]
    [Fixture.buy; Fixture.sell]
  = [TradeVisualizer.mkPoint "10:00 AM" (JS.ofZ 50) (Some Fixture.sell);
     TradeVisualizer.mkPoint "10:00 AM" (JS.ofZ 50) None].
Proof. vm_compute. reflexivity. Qed.

Example availableTickers_fixture :
  App.availableTickers
    (Some (PriceBatch.mk "b3" Fixture.t1
             [PriceSymbol.mk "SWDY" "Elsewedy" (JS.ofZ 30) JS.zero (JS.ofZ 10);
              Fixture.index;
              Fixture.quote]))
  = ["COMI"; "SWDY"].
Proof. vm_compute. reflexivity. Qed.

(** The chart's effect for "COMI" on a fresh store, an empty price snapshot,
    the cleanup: listener 1, the nested one, is still there. *)
Example chart_cleanup_fixture :
  Firestore.listeners
    (Dashboard.firestore
       (Dashboard.run Fixture.clock
          (Dashboard.mk (Firestore.mk ∅ ∅ 0) App.initialState None
                        (TradeVisualizer.mkState "COMI" [] false) None)
          [Dashboard.TvEffect;
           Dashboard.Deliver 0 (Dashboard.PricesSnapshot []);
           Dashboard.TvCleanup])) !! 1%nat
  = Some (TradeVisualizer.actionsQuery "COMI", TvActions "COMI" []).
Proof. vm_compute. reflexivity. Qed.

(** ** Arithmetic of the summary *)

(** The [reduce] of the code, as a sum of the mapped list. *)
Lemma foldl_floatSum {A} (f : A -> number) (l : list A) (a : number) :
  foldl (fun acc x => JS.add acc (f x)) a l = foldl JS.add a (map f l).
Proof.
  revert a. induction l as [|x l IH]; intros a; [reflexivity|].
  cbn [foldl map]. apply IH.
Qed.

Lemma num_or_truthy (x d : number) :
  JS.truthy d = true -> JS.truthy (JS.num_or x d) = true.
Proof.
  intros Hd. unfold JS.num_or. destruct (JS.truthy x) eqn:E; [exact E|exact Hd].
Qed.

Lemma pnlDivisor_truthy (pv pnl : number) : JS.truthy (App.pnlDivisor pv pnl) = true.
Proof. apply num_or_truthy. reflexivity. Qed.

Lemma pnlDivisor_one (pv pnl : number) :
  JS.truthy (JS.sub pv pnl) = false -> App.pnlDivisor pv pnl = JS.one.
Proof. intros H. unfold App.pnlDivisor, JS.num_or. rewrite H. reflexivity. Qed.

Lemma pnlDivisor_difference (pv pnl : number) :
  JS.truthy (JS.sub pv pnl) = true -> App.pnlDivisor pv pnl = JS.sub pv pnl.
Proof. intros H. unfold App.pnlDivisor, JS.num_or. rewrite H. reflexivity. Qed.

(** Adding [0] to a number that is not NaN is the number, [-0] becoming [0]:
    what [cash || 0] does as well. *)
Lemma add_zero_num_or (x : number) :
  x <> S754_nan -> JS.add x JS.zero = JS.num_or x JS.zero.
Proof.
  destruct x as [[|]|[|]| |s m e]; intros H; try reflexivity. contradiction.
Qed.

(** The computing branch of the summary, for a state and a non-empty list. *)
Lemma summary_computed (st : PortfolioState.t) (ps : list PortfolioPosition.t) :
  ps <> [] ->
  App.summary (Some st) ps =
  Ok (let pv := JS.add (PortfolioState.cash st) (floatSum (marketValues ps)) in
      let pnl := floatSum (unrealizedPnLs ps) in
      App.mkSummary pv pnl (JS.mul (JS.div pnl (App.pnlDivisor pv pnl)) JS.hundred)).
Proof.
  intros Hne. destruct ps as [|p ps]; [contradiction|].
  unfold floatSum, marketValues, unrealizedPnLs.
  rewrite <- !foldl_floatSum. reflexivity.
Qed.

Lemma summary_empty (st : PortfolioState.t) :
  App.summary (Some st) [] =
  Ok (App.mkSummary (JS.num_or (PortfolioState.cash st) JS.zero) JS.zero JS.zero).
Proof. reflexivity. Qed.

Lemma summary_no_state (ps : list PortfolioPosition.t) :
  App.summary None ps = Ok (App.mkSummary JS.zero JS.zero JS.zero).
Proof. reflexivity. Qed.

Lemma summary_returns (st : option PortfolioState.t) (ps : list PortfolioPosition.t) :
  exists r, App.summary st ps = Ok r.
Proof.
  destruct st as [st|].
  - destruct ps as [|p ps].
    + eexists. apply summary_empty.
    + eexists. apply summary_computed. discriminate.
  - eexists. apply summary_no_state.
Qed.

(** *** Rounding never gives NaN *)

Lemma shr_1_nonneg (mrs : shr_record) :
  (0 <= shr_m mrs)%Z -> (0 <= shr_m (shr_1 mrs))%Z.
Proof.
  destruct mrs as [m r s]. cbn [shr_m]. intros H.
  destruct m as [|[p|p|]|p]; cbn; lia.
Qed.

Lemma iter_shr_1_nonneg (p : positive) (mrs : shr_record) :
  (0 <= shr_m mrs)%Z -> (0 <= shr_m (SpecFloat.iter_pos shr_1 p mrs))%Z.
Proof.
  revert mrs. induction p as [p IH|p IH|]; intros mrs H; cbn [SpecFloat.iter_pos].
  - apply IH, IH, shr_1_nonneg, H.
  - apply IH, IH, H.
  - apply shr_1_nonneg, H.
Qed.

Lemma shr_fexp_nonneg (m e : Z) (l : location) :
  (0 <= m)%Z -> (0 <= shr_m (fst (shr_fexp JS.prec JS.emax m e l)))%Z.
Proof.
  intros H. unfold shr_fexp, shr.
  assert (H0 : (0 <= shr_m (shr_record_of_loc m l))%Z)
    by (destruct l as [|[| |]]; exact H).
  destruct (fexp JS.prec JS.emax (Zdigits2 m + e) - e)%Z; cbn [fst];
    [exact H0|apply iter_shr_1_nonneg; exact H0|exact H0].
Qed.

Lemma round_nearest_even_nonneg (m : Z) (l : location) :
  (0 <= m)%Z -> (0 <= round_nearest_even m l)%Z.
Proof.
  intros H. destruct l as [|[| |]]; cbn [round_nearest_even]; try lia.
  destruct (Z.even m); lia.
Qed.

Lemma binary_round_aux_not_nan (sx : bool) (mx ex : Z) (lx : location) :
  (0 <= mx)%Z -> binary_round_aux JS.prec JS.emax sx mx ex lx <> S754_nan.
Proof.
  intros H. unfold binary_round_aux.
  pose proof (shr_fexp_nonneg mx ex lx H) as H1.
  destruct (shr_fexp JS.prec JS.emax mx ex lx) as [mrs' e']. cbn [fst] in H1.
  pose proof (shr_fexp_nonneg _ e' loc_Exact
                (round_nearest_even_nonneg _ (loc_of_shr_record mrs') H1)) as H2.
  destruct (shr_fexp JS.prec JS.emax _ e' loc_Exact) as [mrs'' e'']. cbn [fst] in H2.
  destruct (shr_m mrs'') as [|m|m]; [discriminate| |lia].
  destruct (e'' <=? JS.emax - JS.prec)%Z; discriminate.
Qed.

(** A finite number divided by one that is neither zero nor NaN is a number. *)
Lemma div_not_nan (a b : number) :
  JS.is_finite a = true -> JS.truthy b = true -> JS.div a b <> S754_nan.
Proof.
  destruct a as [sa|sa| |sa ma ea]; try discriminate;
    destruct b as [sb|sb| |sb mb eb]; try discriminate; intros _ _;
    try (cbn; discriminate).
  unfold JS.div, SFdiv, SFdiv_core_binary.
  set (m' := match (ea - eb - _)%Z with
             | Z0 => Z.pos ma
             | Z.pos _ => Z.shiftl (Z.pos ma) _
             | Z.neg _ => 0%Z
             end).
  assert (Hm : (0 <= m')%Z).
  { unfold m'. destruct (ea - eb - _)%Z; try lia. apply Z.shiftl_nonneg. lia. }
  pose proof (Z.div_pos m' (Z.pos mb) Hm ltac:(lia)) as Hq.
  unfold Z.div in Hq. destruct (Z.div_eucl m' (Z.pos mb)) as [q r]. cbn [fst] in Hq.
  apply binary_round_aux_not_nan. exact Hq.
Qed.

(** A number times a finite number that is not zero is a number. *)
Lemma mul_not_nan (a b : number) :
  a <> S754_nan -> JS.is_finite b = true -> JS.truthy b = true ->
  JS.mul a b <> S754_nan.
Proof.
  destruct b as [sb|sb| |sb mb eb]; try discriminate; intros Ha _ _.
  destruct a as [sa|sa| |sa ma ea]; try (cbn; discriminate); [contradiction|].
  unfold JS.mul, SFmul. apply binary_round_aux_not_nan. lia.
Qed.

(** ** The portfolio summary *)

(** C1, for the claim as written: with a cash of 1e16 and one share quoted
    at 1 the exact sum is 1e16 + 1, which no double is; the dashboard
    shows 1e16. *)
Lemma portfolioValue_is_not_the_exact_sum :
  JS.representable (PortfolioState.cash Fixture.bigCash) = true
  /\ exists r,
       App.summary (Some Fixture.bigCash) [Fixture.oneShare] = Ok r
       /\ JS.is_finite (App.portfolioValue r) = true
       /\ (JS.toQ (App.portfolioValue r) == 10000000000000000)%Q
       /\ (JS.toQ (PortfolioState.cash Fixture.bigCash)
           + positionsValue [Fixture.oneShare] == 10000000000000001)%Q
       /\ ~ (JS.toQ (App.portfolioValue r)
             == JS.toQ (PortfolioState.cash Fixture.bigCash)
                + positionsValue [Fixture.oneShare])%Q.
Proof.
  split; [vm_compute; reflexivity|].
  eexists. split; [vm_compute; reflexivity|].
  split; [reflexivity|]. split; [vm_compute; reflexivity|].
  split; [vm_compute; reflexivity|]. vm_compute. discriminate.
Qed.

(** C1, as the code has it.  For every portfolio state record and every list
    of positions the displayed portfolio value is the cash plus the sum of
    shares times market price as binary64 computes them: every product
    rounded, the products added from 0 in the order of the list, every
    addition rounded.  For the empty list it is the cash alone, and 0 for a
    cash that is zero or NaN. *)
Theorem portfolioValue_is_the_double_sum :
  (forall (st : PortfolioState.t) (ps : list PortfolioPosition.t),
      PortfolioState.cash st <> S754_nan \/ ps <> [] ->
      exists r, App.summary (Some st) ps = Ok r
                /\ App.portfolioValue r
                   = JS.add (PortfolioState.cash st) (floatSum (marketValues ps)))
  /\ (forall st : PortfolioState.t,
         exists r, App.summary (Some st) [] = Ok r
                   /\ App.portfolioValue r = JS.num_or (PortfolioState.cash st) JS.zero)
  /\ (forall st : PortfolioState.t,
         JS.truthy (PortfolioState.cash st) = true ->
         exists r, App.summary (Some st) [] = Ok r
                   /\ App.portfolioValue r = PortfolioState.cash st).
Proof.
  split; [|split].
  - intros st ps H. destruct ps as [|p ps].
    + destruct H as [H|H]; [|contradiction].
      eexists. split; [apply summary_empty|].
      cbn [App.portfolioValue]. symmetry. apply add_zero_num_or. exact H.
    + eexists. split; [apply summary_computed; discriminate|reflexivity].
  - intros st. eexists. split; [apply summary_empty|reflexivity].
  - intros st H. eexists. split; [apply summary_empty|].
    cbn [App.portfolioValue]. unfold JS.num_or. rewrite H. reflexivity.
Qed.

Lemma portfolioValue_witness :
  exists r, App.summary (Some Fixture.state) [Fixture.comi] = Ok r
            /\ App.portfolioValue r = JS.ofZ 120.
Proof.
  destruct (proj1 portfolioValue_is_the_double_sum Fixture.state [Fixture.comi])
    as (r & Hr & Hv); [right; discriminate|].
  exists r. split; [exact Hr|]. rewrite Hv. vm_compute. reflexivity.
Defined.

(** C3, for the claim as written: one share bought at 10 and quoted at 20,
    with 100 of cash.  The claim gives 100 percent of the invested value; the
    dashboard shows 10 / 110 of a hundred. *)
Lemma dailyPnLPct_is_not_relative_to_invested_value :
  [Fixture.comi] <> []
  /\ exists r,
       App.summary (Some Fixture.state) [Fixture.comi] = Ok r
       /\ App.dailyPnLPct r = JS.mul (JS.div (JS.ofZ 10) (JS.ofZ 110)) (JS.ofZ 100)
       /\ JS.is_finite (App.dailyPnLPct r) = true
       /\ (JS.toQ (App.dailyPnLPct r) < 10)%Q
       /\ (100 * (totalUnrealizedPnL [Fixture.comi] / investedValue [Fixture.comi])
           == 100)%Q
       /\ ~ (JS.toQ (App.dailyPnLPct r)
             == 100 * (totalUnrealizedPnL [Fixture.comi]
                       / investedValue [Fixture.comi]))%Q.
Proof.
  split; [discriminate|].
  eexists. split; [vm_compute; reflexivity|].
  split; [vm_compute; reflexivity|]. split; [vm_compute; reflexivity|].
  split; [vm_compute; reflexivity|]. split; [vm_compute; reflexivity|].
  vm_compute. discriminate.
Qed.

Lemma summary_reads (st : PortfolioState.t) (ps ps' : list PortfolioPosition.t) :
  marketValues ps = marketValues ps' ->
  unrealizedPnLs ps = unrealizedPnLs ps' ->
  App.summary (Some st) ps = App.summary (Some st) ps'.
Proof.
  intros Hv Hp.
  assert (Hlen : length ps = length ps').
  { apply (f_equal length) in Hp. unfold unrealizedPnLs in Hp.
    rewrite !length_map in Hp. exact Hp. }
  destruct ps as [|p ps], ps' as [|p' ps']; try discriminate Hlen; [reflexivity|].
  rewrite !summary_computed by discriminate. rewrite Hv, Hp. reflexivity.
Qed.

(** C3, as the code has it.  For every portfolio state and every non-empty
    list of positions the displayed percentage is, in binary64, the total
    unrealized P/L divided by the portfolio value less that P/L (by 1 when
    that difference is zero or NaN), times 100; the sums are those of the
    summary.  The average cost is not read: positions with the same market
    values and the same unrealized P/L give the same summary. *)
Theorem dailyPnLPct_relative_to_value_before_pnl
    (st : PortfolioState.t) (ps : list PortfolioPosition.t) (Hne : ps <> []) :
  let value := JS.add (PortfolioState.cash st) (floatSum (marketValues ps)) in
  let pnl := floatSum (unrealizedPnLs ps) in
  (exists r,
      App.summary (Some st) ps = Ok r
      /\ App.dailyPnLPct r
         = JS.mul (JS.div pnl (JS.num_or (JS.sub value pnl) JS.one)) JS.hundred)
  /\ (forall ps',
         marketValues ps = marketValues ps' ->
         unrealizedPnLs ps = unrealizedPnLs ps' ->
         App.summary (Some st) ps = App.summary (Some st) ps').
Proof.
  intros value pnl. split.
  - eexists. split; [apply summary_computed; exact Hne|reflexivity].
  - intros ps'. apply summary_reads.
Qed.

Lemma dailyPnLPct_witness :
  App.summary (Some Fixture.state) [Fixture.comi]
  = App.summary (Some Fixture.state)
      [PortfolioPosition.mk "COMI" "COMI" (JS.ofZ 1) (JS.ofZ 19) (JS.ofZ 20) (JS.ofZ 10)].
Proof.
  assert (Hne : [Fixture.comi] <> []) by discriminate.
  exact (proj2 (dailyPnLPct_relative_to_value_before_pnl Fixture.state [Fixture.comi] Hne)
           _ eq_refl eq_refl).
Defined.

(** C9, for the claim as written: no cash and two positions with an
    unrealized P/L of 2^1023 each, all of them doubles.  The total P/L
    overflows to Infinity, the divisor is minus Infinity, and the
    percentage is NaN. *)
Lemma dailyPnLPct_can_be_NaN :
  Forall (fun p => JS.representable (PortfolioPosition.unrealizedPnL p) = true
                   /\ JS.is_finite (PortfolioPosition.unrealizedPnL p) = true)
         [Fixture.hugePnL; Fixture.hugePnL]
  /\ exists r,
       App.summary (Some Fixture.noCash) [Fixture.hugePnL; Fixture.hugePnL] = Ok r
       /\ App.dailyPnL r = S754_infinity false
       /\ App.pnlDivisor (App.portfolioValue r) (App.dailyPnL r) = S754_infinity true
       /\ App.dailyPnLPct r = S754_nan.
Proof.
  split.
  - repeat constructor; vm_compute; reflexivity.
  - eexists. split; [vm_compute; reflexivity|].
    repeat split; vm_compute; reflexivity.
Qed.

(** C9, as the code has it.  The divisor of the percentage is never zero and
    never NaN: it is 1 when the portfolio value less the total P/L is zero
    or NaN, and that difference otherwise.  The summary returns for every
    state and position list, and its percentage is not NaN whenever the
    total unrealized P/L is finite; it can be an infinity when a sum or the
    quotient overflows. *)
Theorem pnl_division_never_by_zero :
  (forall pv pnl : number, JS.truthy (App.pnlDivisor pv pnl) = true)
  /\ (forall (pv pnl : number) (s : bool), App.pnlDivisor pv pnl <> S754_zero s)
  /\ (forall pv pnl : number,
         JS.truthy (JS.sub pv pnl) = false -> App.pnlDivisor pv pnl = JS.one)
  /\ (forall pv pnl : number,
         JS.truthy (JS.sub pv pnl) = true -> App.pnlDivisor pv pnl = JS.sub pv pnl)
  /\ (forall (st : option PortfolioState.t) (ps : list PortfolioPosition.t),
         exists r, App.summary st ps = Ok r)
  /\ (forall (st : PortfolioState.t) (ps : list PortfolioPosition.t),
         ps <> [] ->
         exists r, App.summary (Some st) ps = Ok r
                   /\ App.dailyPnLPct r
                      = JS.mul (JS.div (App.dailyPnL r)
                                  (App.pnlDivisor (App.portfolioValue r) (App.dailyPnL r)))
                               JS.hundred
                   /\ (JS.is_finite (floatSum (unrealizedPnLs ps)) = true ->
                       App.dailyPnLPct r <> S754_nan)).
Proof.
  split; [exact pnlDivisor_truthy|].
  split.
  { intros pv pnl s H. pose proof (pnlDivisor_truthy pv pnl) as Ht.
    rewrite H in Ht. discriminate Ht. }
  split; [exact pnlDivisor_one|].
  split; [exact pnlDivisor_difference|].
  split; [exact summary_returns|].
  intros st ps Hne. eexists. split; [apply summary_computed; exact Hne|].
  cbv zeta. cbn [App.dailyPnLPct App.dailyPnL App.portfolioValue].
  split; [reflexivity|].
  intros Hfin. apply mul_not_nan; [|reflexivity|reflexivity].
  apply div_not_nan; [exact Hfin|apply pnlDivisor_truthy].
Qed.

Lemma pnl_division_witness :
  App.pnlDivisor (JS.ofZ 10) (JS.ofZ 10) = JS.one
  /\ exists r,
       App.summary (Some Fixture.state) [Fixture.comi] = Ok r
       /\ App.dailyPnLPct r <> S754_nan.
Proof.
  destruct pnl_division_never_by_zero as (_ & _ & Hone & _ & _ & Hpct).
  split.
  - apply Hone. reflexivity.
  - destruct (Hpct Fixture.state [Fixture.comi]) as (r & Hr & _ & Hnan); [discriminate|].
    exists r. split; [exact Hr|]. apply Hnan. reflexivity.
Defined.

(** ** The chart merge *)

Lemma find_none_existsb {A} (f : A -> bool) (l : list A) :
  existsb f l = false -> List.find f l = None.
Proof.
  induction l as [|x l IH]; simpl; [reflexivity|].
  destruct (f x); simpl; [discriminate|exact IH].
Qed.

Lemma find_some_existsb {A} (f : A -> bool) (l : list A) :
  existsb f l = true -> exists x, List.find f l = Some x /\ f x = true /\ In x l.
Proof.
  induction l as [|x l IH]; simpl; [discriminate|].
  destruct (f x) eqn:E; simpl.
  - intros _. exists x. auto.
  - intros H. destruct (IH H) as (y & Hy & Hf & Hin). exists y. auto.
Qed.

Lemma omap_id_map {A B} (f : A -> option B) (l : list A) :
  omap id (map f l) = omap f l.
Proof.
  induction l as [|x l IH]; [reflexivity|].
  cbn. destruct (f x); cbn; rewrite <- IH; reflexivity.
Qed.

Section Merge.

Variable toLocaleTimeString : Z -> string.
Variable selectedTicker : string.

Local Abbreviation chartPoint :=
  (TradeVisualizer.chartPoint toLocaleTimeString selectedTicker).
Local Abbreviation mergedData :=
  (TradeVisualizer.mergedData toLocaleTimeString selectedTicker).

Lemma chartPoint_without_ticker byId b :
  hasTicker selectedTicker b = false -> chartPoint byId b = None.
Proof.
  intros H. unfold chartPoint, TradeVisualizer.chartPoint.
  rewrite (find_none_existsb _ _ H). reflexivity.
Qed.

Lemma chartPoint_with_ticker byId b :
  hasTicker selectedTicker b = true ->
  exists s,
    List.find (fun s => String.eqb (PriceSymbol.ticker s) selectedTicker)
              (PriceBatch.symbols b) = Some s
    /\ chartPoint byId b
       = Some (TradeVisualizer.mkPoint
                 (toLocaleTimeString
                    (Timestamp.seconds (PriceBatch.createdAt b) * 1000)%Z)
                 (PriceSymbol.close s)
                 (byId !! PriceBatch.batchId b)).
Proof.
  intros H. destruct (find_some_existsb _ _ H) as (s & Hs & _).
  exists s. split; [exact Hs|].
  unfold chartPoint, TradeVisualizer.chartPoint. rewrite Hs. reflexivity.
Qed.

(** The points before the reversal, against the batches that have the ticker. *)
Lemma omap_chartPoint_filter byId prices :
  Forall2 (fun b p => chartPoint byId b = Some p)
          (List.filter (hasTicker selectedTicker) prices)
          (omap (chartPoint byId) prices).
Proof.
  induction prices as [|b prices IH]; simpl; [constructor|].
  destruct (hasTicker selectedTicker b) eqn:E.
  - destruct (chartPoint_with_ticker byId b E) as (s & _ & Hp).
    rewrite Hp. constructor; [exact Hp|exact IH].
  - rewrite (chartPoint_without_ticker byId b E). exact IH.
Qed.

Lemma mergedData_omap prices actions :
  mergedData prices actions
  = reverse (omap (chartPoint (TradeVisualizer.actionsByBatchId actions)) prices).
Proof.
  unfold mergedData, TradeVisualizer.mergedData. rewrite omap_id_map. reflexivity.
Qed.

Lemma mergedData_sources prices actions :
  Forall2 (fun b p => chartPoint (TradeVisualizer.actionsByBatchId actions) b = Some p)
          (chartBatches selectedTicker prices)
          (mergedData prices actions).
Proof.
  rewrite mergedData_omap. unfold chartBatches.
  apply Forall2_reverse, omap_chartPoint_filter.
Qed.

Lemma length_mergedData prices actions :
  length (mergedData prices actions)
  = length (List.filter (hasTicker selectedTicker) prices).
Proof.
  pose proof (mergedData_sources prices actions) as H.
  apply Forall2_length in H. rewrite <- H.
  unfold chartBatches. apply length_reverse.
Qed.

End Merge.

Lemma length_filter_le {A} (f : A -> bool) (l : list A) :
  (length (List.filter f l) <= length l)%nat.
Proof.
  induction l as [|x l IH]; simpl; [lia|]. destruct (f x); simpl; lia.
Qed.

(** The map built by the [Map] constructor answers with the last action
    of the list that has the key. *)
Lemma actionsByBatchId_lookup (actions : list TradeAction.t) (k : string) :
  TradeVisualizer.actionsByBatchId actions !! k
  = last (List.filter (fun a => String.eqb (TradeAction.batchId a) k) actions).
Proof.
  induction actions as [|a actions IH] using rev_ind.
  - reflexivity.
  - unfold TradeVisualizer.actionsByBatchId in *.
    rewrite foldl_snoc, List.filter_app. simpl.
    destruct (String.eqb_spec (TradeAction.batchId a) k) as [->|Hne].
    + rewrite lookup_insert_eq, last_snoc. reflexivity.
    + rewrite lookup_insert_ne by exact Hne. rewrite app_nil_r. exact IH.
Qed.

Lemma filter_nil_iff {A} (f : A -> bool) (l : list A) :
  List.filter f l = [] <-> forall x, In x l -> f x = false.
Proof.
  induction l as [|x l IH]; simpl.
  - split; [intros _ y []|reflexivity].
  - destruct (f x) eqn:E.
    + split; [discriminate|]. intros H. specialize (H x (or_introl eq_refl)). congruence.
    + rewrite IH. split.
      * intros H y [<-|Hy]; [exact E|exact (H y Hy)].
      * intros H y Hy. apply H. right. exact Hy.
Qed.

(** The last element of a filtered list, located in the list itself. *)
Lemma last_filter_split {A} (f : A -> bool) (l : list A) (a : A) :
  last (List.filter f l) = Some a ->
  exists l1 l2, l = l1 ++ a :: l2 /\ f a = true /\ forall x, In x l2 -> f x = false.
Proof.
  induction l as [|x l IH] using rev_ind; [discriminate|].
  rewrite List.filter_app. simpl. destruct (f x) eqn:E.
  - rewrite last_snoc. intros [= ->]. exists l, []. split; [reflexivity|].
    split; [exact E|]. intros y [].
  - rewrite app_nil_r. intros H. destruct (IH H) as (l1 & l2 & -> & Ha & Hl2).
    exists l1, (l2 ++ [x]). split; [rewrite <- app_assoc; reflexivity|].
    split; [exact Ha|]. intros y Hy. apply in_app_or in Hy.
    destruct Hy as [Hy|[<-|[]]]; [exact (Hl2 y Hy)|exact E].
Qed.

Lemma StronglySorted_filter {A} (R : relation A) (f : A -> bool) (l : list A) :
  StronglySorted R l -> StronglySorted R (List.filter f l).
Proof.
  induction 1 as [|x l _ IH Hx]; simpl; [constructor|].
  destruct (f x); [|exact IH].
  constructor; [exact IH|].
  rewrite List.Forall_forall in *. intros y Hy.
  apply List.filter_In in Hy. apply Hx. tauto.
Qed.

Lemma StronglySorted_reverse {A} (R : relation A) (l : list A) :
  StronglySorted R l -> StronglySorted (flip R) (reverse l).
Proof.
  induction 1 as [|x l _ IH Hx]; [constructor|].
  rewrite reverse_cons. apply StronglySorted_app_2.
  - intros y z Hy Hz. apply list_elem_of_singleton in Hz. subst z.
    rewrite elem_of_reverse in Hy. rewrite List.Forall_forall in Hx.
    apply Hx. apply list_elem_of_In. exact Hy.
  - exact IH.
  - repeat constructor.
Qed.

(** Every point takes its trade from the map, at the batchId of its batch. *)
Lemma mergedData_trades tl (selectedTicker : string)
    (prices : list PriceBatch.t) (actions : list TradeAction.t) :
  Forall2 (fun b p => TradeVisualizer.trade p = last (actionsOfBatch b actions))
          (chartBatches selectedTicker prices)
          (TradeVisualizer.mergedData tl selectedTicker prices actions).
Proof.
  eapply Forall2_impl; [apply mergedData_sources|].
  intros b p Hp. cbv beta in Hp.
  unfold TradeVisualizer.chartPoint in Hp.
  destruct (List.find _ (PriceBatch.symbols b)); [|discriminate].
  injection Hp as <-. cbn [TradeVisualizer.trade].
  apply actionsByBatchId_lookup.
Qed.

Lemma point_trade_source tl (selectedTicker : string)
    (prices : list PriceBatch.t) (actions : list TradeAction.t)
    (p : TradeVisualizer.ChartDataPoint) :
  In p (TradeVisualizer.mergedData tl selectedTicker prices actions) ->
  exists b, In b prices /\ TradeVisualizer.trade p = last (actionsOfBatch b actions).
Proof.
  intros Hin.
  apply list_elem_of_In, list_elem_of_lookup in Hin. destruct Hin as (i & Hi).
  destruct (Forall2_lookup_r _ _ _ _ _
              (mergedData_trades tl selectedTicker prices actions) Hi)
    as (b & Hb & Hp).
  exists b. split; [|exact Hp].
  apply list_elem_of_lookup_2 in Hb. unfold chartBatches in Hb.
  rewrite elem_of_reverse in Hb. apply list_elem_of_In in Hb.
  apply List.filter_In in Hb. tauto.
Qed.

Lemma last_filter_is_Some {A} (f : A -> bool) (l : list A) :
  is_Some (last (List.filter f l)) <-> exists a, In a l /\ f a = true.
Proof.
  rewrite last_is_Some. split.
  - intros Hne. destruct (List.filter f l) as [|a l'] eqn:E; [contradiction|].
    exists a. apply List.filter_In. rewrite E. left. reflexivity.
  - intros (a & Ha) E. apply List.filter_In in Ha. rewrite E in Ha. destruct Ha.
Qed.

Lemma TradeMarker_is_Some (p : TradeVisualizer.ChartDataPoint) :
  is_Some (TradeVisualizer.TradeMarker p) <-> is_Some (TradeVisualizer.trade p).
Proof.
  unfold TradeVisualizer.TradeMarker.
  destruct (TradeVisualizer.trade p); split; intros [x Hx]; try discriminate; eauto.
Qed.

(** C2, for the claim as written: a batch that does not list the selected
    ticker gives no chart point, so one batch can give zero points. *)
Lemma batch_without_ticker_gives_no_point :
  (length [Fixture.batchWithout] <= 100)%nat
  /\ TradeVisualizer.mergedData Fixture.clock "COMI" [Fixture.batchWithout] [] = []
  /\ length (TradeVisualizer.mergedData Fixture.clock "COMI" [Fixture.batchWithout] [])
     <> length [Fixture.batchWithout].
Proof.
  split; [simpl; lia|]. split; [reflexivity|]. vm_compute. discriminate.
Qed.

(** C2, as the code has it.  For every list of at most 100 price batches and
    every list of trade actions the merge gives exactly one chart point per
    batch that lists the selected ticker, and none for the other batches;
    the point carries the batch's time label, the closing price of the
    ticker's first quote in the batch, and a trade marker exactly when some
    action has the batch's batchId. *)
Theorem chart_point_per_batch_with_ticker
    (toLocaleTimeString : Z -> string) (selectedTicker : string)
    (prices : list PriceBatch.t) (actions : list TradeAction.t)
    (Hlimit : (length prices <= 100)%nat) :
  let points := TradeVisualizer.mergedData toLocaleTimeString selectedTicker prices actions in
  (length points <= 100)%nat
  /\ length points = length (List.filter (hasTicker selectedTicker) prices)
  /\ Forall2
       (fun b p =>
          TradeVisualizer.date p
          = toLocaleTimeString (Timestamp.seconds (PriceBatch.createdAt b) * 1000)%Z
          /\ (exists s,
                 List.find (fun s => String.eqb (PriceSymbol.ticker s) selectedTicker)
                           (PriceBatch.symbols b) = Some s
                 /\ TradeVisualizer.close p = PriceSymbol.close s)
          /\ (is_Some (TradeVisualizer.TradeMarker p)
              <-> exists a, In a actions
                            /\ TradeAction.batchId a = PriceBatch.batchId b))
       (chartBatches selectedTicker prices) points.
Proof.
  intros points. unfold points.
  pose proof (length_mergedData toLocaleTimeString selectedTicker prices actions) as Hlen.
  split; [|split; [exact Hlen|]].
  - rewrite Hlen. pose proof (length_filter_le (hasTicker selectedTicker) prices). lia.
  - eapply Forall2_impl; [apply mergedData_sources|].
    intros b p Hp. cbv beta in Hp.
    destruct (hasTicker selectedTicker b) eqn:E.
    + destruct (chartPoint_with_ticker toLocaleTimeString selectedTicker
                  (TradeVisualizer.actionsByBatchId actions) b E) as (s & Hs & Hp').
      rewrite Hp' in Hp. injection Hp as <-. cbn [TradeVisualizer.date TradeVisualizer.close].
      split; [reflexivity|]. split; [exists s; auto|].
      rewrite TradeMarker_is_Some. cbn [TradeVisualizer.trade].
      rewrite actionsByBatchId_lookup, last_filter_is_Some.
      split; intros (a & Ha & Hb); exists a; (split; [exact Ha|]).
      * apply String.eqb_eq. exact Hb.
      * apply String.eqb_eq. exact Hb.
    + rewrite (chartPoint_without_ticker toLocaleTimeString selectedTicker _ b E) in Hp.
      discriminate.
Qed.

Lemma chart_point_per_batch_witness :
  (length [Fixture.batchNew; Fixture.batchWithout; Fixture.batchOld] <= 100)%nat
  /\ length (TradeVisualizer.mergedData Fixture.clock "COMI"
               [Fixture.batchNew; Fixture.batchWithout; Fixture.batchOld]
               [Fixture.buy]) = 2%nat.
Proof.
  assert (H : (length [Fixture.batchNew; Fixture.batchWithout; Fixture.batchOld] <= 100)%nat)
    by (simpl; lia).
  split; [exact H|].
  destruct (chart_point_per_batch_with_ticker Fixture.clock "COMI"
              [Fixture.batchNew; Fixture.batchWithout; Fixture.batchOld]
              [Fixture.buy] H) as (_ & Hlen & _).
  rewrite Hlen. reflexivity.
Defined.

(** C4.  When the batches arrive newest first, the batches behind the chart
    points are ordered oldest first, each point being the image of its
    batch: the merge is the reversal of the order-preserving map (the
    batches without the ticker dropped) of its input. *)
Theorem chart_is_oldest_to_newest
    (toLocaleTimeString : Z -> string) (selectedTicker : string)
    (prices : list PriceBatch.t) (actions : list TradeAction.t)
    (Hdesc : newestFirst prices) :
  let byId := TradeVisualizer.actionsByBatchId actions in
  let points := TradeVisualizer.mergedData toLocaleTimeString selectedTicker prices actions in
  oldestFirst (chartBatches selectedTicker prices)
  /\ Forall2
       (fun b p =>
          TradeVisualizer.chartPoint toLocaleTimeString selectedTicker byId b = Some p)
       (chartBatches selectedTicker prices) points
  /\ points
     = reverse (omap (TradeVisualizer.chartPoint toLocaleTimeString selectedTicker byId)
                     prices).
Proof.
  intros byId points. split; [|split].
  - unfold oldestFirst, chartBatches.
    apply (StronglySorted_reverse
             (fun a b => Timestamp.le (PriceBatch.createdAt b) (PriceBatch.createdAt a))).
    apply StronglySorted_filter. exact Hdesc.
  - apply mergedData_sources.
  - apply mergedData_omap.
Qed.

Lemma chart_is_oldest_to_newest_witness :
  newestFirst [Fixture.batchNew; Fixture.batchWithout; Fixture.batchOld]
  /\ oldestFirst (chartBatches "COMI"
                    [Fixture.batchNew; Fixture.batchWithout; Fixture.batchOld]).
Proof.
  assert (H : newestFirst [Fixture.batchNew; Fixture.batchWithout; Fixture.batchOld]).
  { unfold newestFirst. repeat constructor. }
  split; [exact H|].
  exact (proj1 (chart_is_oldest_to_newest Fixture.clock "COMI" _ [Fixture.buy] H)).
Defined.

(** C10.  The chart point of a batch carries the last action of the action
    list that has the batch's batchId, and no other: an action shown on a
    point is followed in the list by no action with its batchId. *)
Theorem shared_batch_marker_is_last_action
    (toLocaleTimeString : Z -> string) (selectedTicker : string)
    (prices : list PriceBatch.t) (actions : list TradeAction.t) :
  let points := TradeVisualizer.mergedData toLocaleTimeString selectedTicker prices actions in
  Forall2 (fun b p => TradeVisualizer.trade p = last (actionsOfBatch b actions))
          (chartBatches selectedTicker prices) points
  /\ (forall p a,
         In p points -> TradeVisualizer.trade p = Some a ->
         exists l1 l2,
           actions = l1 ++ a :: l2
           /\ forall a', In a' l2 -> TradeAction.batchId a' <> TradeAction.batchId a).
Proof.
  intros points. split; [apply mergedData_trades|].
  intros p a Hin Ha.
  destruct (point_trade_source _ _ _ _ _ Hin) as (b & _ & Hb).
  rewrite Ha in Hb. symmetry in Hb.
  destruct (last_filter_split _ _ _ Hb) as (l1 & l2 & Hl & Hfa & Hl2).
  exists l1, l2. split; [exact Hl|].
  intros a' Ha' Heq. specialize (Hl2 a' Ha').
  apply String.eqb_eq in Hfa. rewrite Heq, Hfa, String.eqb_refl in Hl2. discriminate.
Qed.

Lemma shared_batch_marker_witness :
  exists l1 l2,
    [Fixture.buy; Fixture.sell] = l1 ++ Fixture.sell :: l2
    /\ forall a', In a' l2 -> TradeAction.batchId a' <> TradeAction.batchId Fixture.sell.
Proof.
  refine (proj2 (shared_batch_marker_is_last_action Fixture.clock "COMI"
                   [Fixture.batchOld] [Fixture.buy; Fixture.sell])
                (TradeVisualizer.mkPoint "10:00 AM" (JS.ofZ 50) (Some Fixture.sell))
                Fixture.sell _ _).
  - vm_compute. left. reflexivity.
  - reflexivity.
Defined.

(** ** The store listeners of the dashboard *)

Lemma checkAllLoaded_cells (es : App.Effect * App.State) :
  App.portfolioState (App.checkAllLoaded es).2 = App.portfolioState es.2
  /\ App.portfolioPositions (App.checkAllLoaded es).2 = App.portfolioPositions es.2
  /\ App.latestBatch (App.checkAllLoaded es).2 = App.latestBatch es.2
  /\ App.tradeActions (App.checkAllLoaded es).2 = App.tradeActions es.2.
Proof.
  unfold App.checkAllLoaded.
  destruct (_ <=? _)%nat; repeat split; reflexivity.
Qed.

Lemma onPortfolioState_absent (es : App.Effect * App.State) :
  App.onPortfolioState None es = Ok (App.checkAllLoaded es).
Proof. reflexivity. Qed.

Lemma onPortfolioState_present (d : PortfolioState.t) (es : App.Effect * App.State) :
  App.onPortfolioState (Some d) es
  = Ok (App.checkAllLoaded (es.1, App.setPortfolioState (Some d) es.2)).
Proof. reflexivity. Qed.

Lemma onLatestBatch_empty (es : App.Effect * App.State) :
  App.onLatestBatch [] es = Ok (App.checkAllLoaded es).
Proof. reflexivity. Qed.

Lemma onLatestBatch_first (d : Firestore.QueryDocumentSnapshot PriceBatch.t)
    (rest : Firestore.QuerySnapshot PriceBatch.t) (es : App.Effect * App.State) :
  App.onLatestBatch (d :: rest) es
  = Ok (App.checkAllLoaded (es.1, App.setLatestBatch (Some (Firestore.data d)) es.2)).
Proof. reflexivity. Qed.

(** C5, for the claim as written: the state document has disappeared, the
    dashboard still holds the record it had. *)
Lemma vanished_state_document_is_kept :
  exists es,
    App.onPortfolioState None (Fixture.appEffect, Fixture.appState) = Ok es
    /\ App.portfolioState es.2 = Some Fixture.state
    /\ App.portfolioState es.2 <> None.
Proof.
  eexists. split; [apply onPortfolioState_absent|].
  split; [reflexivity|discriminate].
Qed.

(** C5, as the code has it.  A snapshot in which the state document does not
    exist, or in which the prices query is empty, leaves the portfolio state
    and the latest batch of the dashboard as they were; the positions and
    the trade actions of the dashboard are those of the last snapshot, so a
    record absent from the snapshot is absent from the dashboard. *)
Theorem absent_snapshot_keeps_single_records :
  (forall e s, exists es,
        App.onPortfolioState None (e, s) = Ok es
        /\ App.portfolioState es.2 = App.portfolioState s)
  /\ (forall e s, exists es,
         App.onLatestBatch [] (e, s) = Ok es
         /\ App.latestBatch es.2 = App.latestBatch s)
  /\ (forall snapshot e s, exists es,
         App.onPositions snapshot (e, s) = Ok es
         /\ App.portfolioPositions es.2
            = map (fun d => position_withId (Firestore.id d) (Firestore.data d)) snapshot
         /\ forall p, In p (App.portfolioPositions es.2) ->
                      exists d, In d snapshot
                                /\ p = position_withId (Firestore.id d) (Firestore.data d))
  /\ (forall snapshot e s, exists es,
         App.onTradeActions snapshot (e, s) = Ok es
         /\ App.tradeActions es.2
            = map (fun d => action_withId (Firestore.id d) (Firestore.data d)) snapshot
         /\ forall a, In a (App.tradeActions es.2) ->
                      exists d, In d snapshot
                                /\ a = action_withId (Firestore.id d) (Firestore.data d)).
Proof.
  split; [|split; [|split]].
  - intros e s. eexists. split; [apply onPortfolioState_absent|].
    apply checkAllLoaded_cells.
  - intros e s. eexists. split; [apply onLatestBatch_empty|].
    apply checkAllLoaded_cells.
  - intros snapshot e s. eexists. split; [reflexivity|].
    destruct (checkAllLoaded_cells
                (e, App.setPortfolioPositions
                      (map (fun d => position_withId (Firestore.id d) (Firestore.data d))
                           snapshot) s)) as (_ & H & _).
    cbn [snd App.setPortfolioPositions App.portfolioPositions] in H.
    cbn [fst snd]. rewrite H. split; [reflexivity|].
    intros p Hp. apply List.in_map_iff in Hp. destruct Hp as (d & <- & Hd).
    exists d. split; [exact Hd|reflexivity].
  - intros snapshot e s. eexists. split; [reflexivity|].
    destruct (checkAllLoaded_cells
                (e, App.setTradeActions
                      (map (fun d => action_withId (Firestore.id d) (Firestore.data d))
                           snapshot) s)) as (_ & _ & _ & H).
    cbn [snd App.setTradeActions App.tradeActions] in H.
    cbn [fst snd]. rewrite H. split; [reflexivity|].
    intros a Ha. apply List.in_map_iff in Ha. destruct Ha as (d & <- & Hd).
    exists d. split; [exact Hd|reflexivity].
Qed.

Lemma absent_snapshot_witness :
  In Fixture.comi [position_withId "COMI" Fixture.comiData]
  /\ exists d, In d [Firestore.mkDoc "COMI" Fixture.comiData]
               /\ Fixture.comi = position_withId (Firestore.id d) (Firestore.data d).
Proof.
  assert (Hin : In Fixture.comi [position_withId "COMI" Fixture.comiData])
    by (left; reflexivity).
  split; [exact Hin|].
  destruct (proj1 (proj2 (proj2 absent_snapshot_keeps_single_records))
              [Firestore.mkDoc "COMI" Fixture.comiData] Fixture.appEffect Fixture.appState)
    as (es & Hes & Hcells & Hsrc).
  rewrite Hcells in Hsrc. exact (Hsrc _ Hin).
Defined.

(** *** Teardown *)

Lemma cleanup_listeners (e : App.Effect) (fs : Firestore.t Callback) (h : nat) :
  In h (App.unsubscribers e) ->
  Firestore.listeners (App.cleanup e fs) !! h = None.
Proof.
  unfold App.cleanup. generalize (App.unsubscribers e) as l.
  induction l as [|u l IH] using rev_ind; intros Hin; [destruct Hin|].
  rewrite foldl_snoc. cbn [Firestore.unsubscribe Firestore.listeners].
  destruct (decide (u = h)) as [->|Hne].
  - apply lookup_delete_eq.
  - rewrite lookup_delete_ne by exact Hne. apply IH.
    apply in_app_or in Hin. destruct Hin as [Hin|[Hin|[]]]; [exact Hin|contradiction].
Qed.

(** The [App] half of the teardown: the effect subscribes four listeners,
    records the four handles, and the cleanup leaves none of them registered. *)
Lemma app_cleanup_unsubscribes_all (fs fs' : Firestore.t Callback) :
  let n := Firestore.nextId fs in
  App.unsubscribers (App.useEffect fs).1 = [n; S n; S (S n); S (S (S n))]
  /\ Firestore.nextId (App.useEffect fs).2 = S (S (S (S n)))
  /\ forall h, (n <= h < Firestore.nextId (App.useEffect fs).2)%nat ->
               Firestore.listeners (App.cleanup (App.useEffect fs).1 fs') !! h = None.
Proof.
  intros n. split; [reflexivity|]. split; [reflexivity|].
  intros h Hh. apply cleanup_listeners.
  change (App.unsubscribers (App.useEffect fs).1) with [n; S n; S (S n); S (S (S n))].
  change (Firestore.nextId (App.useEffect fs).2) with (S (S (S (S n)))) in Hh.
  simpl. lia.
Qed.

Lemma checkAllLoaded_unsubscribers (es : App.Effect * App.State) :
  App.unsubscribers (App.checkAllLoaded es).1 = App.unsubscribers es.1.
Proof. unfold App.checkAllLoaded. destruct (_ <=? _)%nat; reflexivity. Qed.

Lemma deliver_unsubscribers tl (listener : nat) (snap : Dashboard.Snapshot)
    (w : Dashboard.World) :
  App.unsubscribers <$> Dashboard.appEffect (Dashboard.deliver tl listener snap w)
  = App.unsubscribers <$> Dashboard.appEffect w.
Proof.
  unfold Dashboard.deliver.
  destruct (Firestore.listeners (Dashboard.firestore w) !! listener) as [[ref cb]|];
    [|reflexivity].
  destruct cb, snap; try reflexivity; unfold Dashboard.runApp;
    destruct (Dashboard.appEffect w) as [e|] eqn:He; rewrite ?He; try reflexivity.
  - destruct docSnap; cbn; f_equal; apply checkAllLoaded_unsubscribers.
  - cbn. f_equal. apply checkAllLoaded_unsubscribers.
  - destruct snapshot; cbn; f_equal; apply checkAllLoaded_unsubscribers.
  - cbn. f_equal. apply checkAllLoaded_unsubscribers.
Qed.

(** X15.  One whole run of the subscription effect of [App]: the effect, any
    snapshots delivered to any listeners, the cleanup.  None of the four
    listeners of the run is registered afterwards. *)
Lemma app_run_unsubscribes_all tl (w : Dashboard.World)
    (deliveries : list (nat * Dashboard.Snapshot)) :
  let n := Firestore.nextId (Dashboard.firestore w) in
  let w' := Dashboard.run tl w
              (Dashboard.AppEffect
                 :: map (fun d => Dashboard.Deliver d.1 d.2) deliveries
                 ++ [Dashboard.AppCleanup]) in
  Dashboard.appEffect w' = None
  /\ forall h, (n <= h < n + 4)%nat ->
               Firestore.listeners (Dashboard.firestore w') !! h = None.
Proof.
  intros n w'. subst w'. unfold Dashboard.run.
  cbn [foldl]. rewrite foldl_snoc.
  set (w1 := Dashboard.step tl w Dashboard.AppEffect).
  assert (H1 : App.unsubscribers <$> Dashboard.appEffect w1
               = Some [n; S n; S (S n); S (S (S n))]) by reflexivity.
  assert (H2 : forall w0,
             App.unsubscribers <$> Dashboard.appEffect
               (foldl (Dashboard.step tl) w0
                      (map (fun d => Dashboard.Deliver d.1 d.2) deliveries))
             = App.unsubscribers <$> Dashboard.appEffect w0).
  { induction deliveries as [|d ds IH]; intros w0; [reflexivity|].
    cbn [map foldl]. rewrite IH. apply deliver_unsubscribers. }
  specialize (H2 w1). rewrite H1 in H2.
  set (w2 := foldl _ w1 _) in *.
  cbn [Dashboard.step].
  destruct (Dashboard.appEffect w2) as [e|]; [|discriminate].
  injection H2 as He. split; [reflexivity|].
  intros h Hh. cbn [Dashboard.firestore].
  apply cleanup_listeners. rewrite He. simpl. lia.
Qed.

(** C6, where the code departs from it.  One run of the chart's subscription
    effect for a non-empty ticker, from any state of the dashboard: the
    effect, one price snapshot delivered to its listener, the cleanup.  The
    prices listener is gone; the actions listener that the prices callback
    subscribed is still registered. *)
Theorem nested_actions_listener_outlives_cleanup
    (toLocaleTimeString : Z -> string) (fs : Firestore.t Callback)
    (appState : App.State) (appEffect : option App.Effect)
    (c : Ascii.ascii) (rest : string)
    (chartData : list TradeVisualizer.ChartDataPoint) (loading : bool)
    (priceSnapshot : Firestore.QuerySnapshot PriceBatch.t) :
  let ticker := String c rest in
  let n := Firestore.nextId fs in
  let w0 := Dashboard.mk fs appState appEffect
                         (TradeVisualizer.mkState ticker chartData loading) None in
  let w := Dashboard.run toLocaleTimeString w0
             [Dashboard.TvEffect;
              Dashboard.Deliver n (Dashboard.PricesSnapshot priceSnapshot);
              Dashboard.TvCleanup] in
  Dashboard.tvEffect w = None
  /\ Firestore.listeners (Dashboard.firestore w) !! n = None
  /\ Firestore.listeners (Dashboard.firestore w) !! S n
     = Some (TradeVisualizer.actionsQuery ticker,
             TvActions ticker (map Firestore.data priceSnapshot)).
Proof.
  intros ticker n w0 w. subst w w0.
  unfold Dashboard.run. cbn [foldl Dashboard.step].
  unfold TradeVisualizer.useEffect.
  cbn [TradeVisualizer.selectedTicker TradeVisualizer.setLoading Dashboard.tvState
       Dashboard.firestore].
  change (String.eqb ticker "") with false. cbv iota.
  cbn [Firestore.onSnapshot Firestore.nextId Firestore.listeners Firestore.documents].
  unfold Dashboard.deliver.
  cbn [Dashboard.firestore Firestore.listeners].
  fold n. rewrite lookup_insert_eq.
  cbn [TradeVisualizer.onPrices Firestore.onSnapshot Firestore.nextId Firestore.listeners
       Firestore.documents Dashboard.tvEffect Dashboard.firestore
       TradeVisualizer.cleanup TradeVisualizer.unsubscribePrices Firestore.unsubscribe].
  split; [reflexivity|]. split.
  - apply lookup_delete_eq.
  - rewrite lookup_delete_ne by lia. apply lookup_insert_eq.
Qed.

(** *** The store is only read *)

Lemma cleanup_documents (e : App.Effect) (fs : Firestore.t Callback) :
  Firestore.documents (App.cleanup e fs) = Firestore.documents fs.
Proof.
  unfold App.cleanup. generalize (App.unsubscribers e) as l.
  induction l as [|u l IH] using rev_ind; [reflexivity|].
  rewrite foldl_snoc. exact IH.
Qed.

Lemma runApp_documents h (w : Dashboard.World) :
  Firestore.documents (Dashboard.firestore (Dashboard.runApp h w))
  = Firestore.documents (Dashboard.firestore w).
Proof.
  unfold Dashboard.runApp. destruct (Dashboard.appEffect w); [|reflexivity].
  destruct (h _); reflexivity.
Qed.

Lemma deliver_documents tl (listener : nat) (snap : Dashboard.Snapshot) (w : Dashboard.World) :
  Firestore.documents (Dashboard.firestore (Dashboard.deliver tl listener snap w))
  = Firestore.documents (Dashboard.firestore w).
Proof.
  unfold Dashboard.deliver.
  destruct (Firestore.listeners (Dashboard.firestore w) !! listener) as [[ref cb]|];
    [|reflexivity].
  destruct cb, snap; try reflexivity; apply runApp_documents.
Qed.

Lemma step_documents tl (w : Dashboard.World) (ev : Dashboard.Event) :
  Firestore.documents (Dashboard.firestore (Dashboard.step tl w ev))
  = Firestore.documents (Dashboard.firestore w).
Proof.
  destruct ev; cbn [Dashboard.step]; try reflexivity.
  - destruct (Dashboard.appEffect w); [|reflexivity]. apply cleanup_documents.
  - unfold TradeVisualizer.useEffect.
    destruct (String.eqb _ _); reflexivity.
  - destruct (Dashboard.tvEffect w); reflexivity.
  - apply deliver_documents.
Qed.

(** C7.  Whatever the sequence of effect runs, cleanups, ticker changes and
    delivered snapshots, the documents of the store are those it started
    with: the dashboard only subscribes and unsubscribes. *)
Theorem dashboard_never_writes
    (toLocaleTimeString : Z -> string) (evs : list Dashboard.Event) (w : Dashboard.World) :
  Firestore.documents (Dashboard.firestore (Dashboard.run toLocaleTimeString w evs))
  = Firestore.documents (Dashboard.firestore w).
Proof.
  unfold Dashboard.run. revert w.
  induction evs as [|ev evs IH]; intros w; [reflexivity|].
  cbn [foldl]. rewrite IH. apply step_documents.
Qed.

(** A write, for comparison, is visible in the documents. *)
Lemma setDoc_writes (path : string) (d : Firestore.Document) (fs : Firestore.t Callback) :
  Firestore.documents (Firestore.setDoc path d fs) !! path = Some d.
Proof. apply lookup_insert_eq. Qed.

(** ** Absent data *)

Lemma mergedData_without_ticker tl (selectedTicker : string)
    (prices : list PriceBatch.t) (actions : list TradeAction.t) :
  (forall b, In b prices -> hasTicker selectedTicker b = false) ->
  TradeVisualizer.mergedData tl selectedTicker prices actions = [].
Proof.
  intros H. apply filter_nil_iff in H.
  pose proof (length_mergedData tl selectedTicker prices actions) as Hlen.
  rewrite H in Hlen. apply length_zero_iff_nil. exact Hlen.
Qed.

Lemma mergedData_without_actions tl (selectedTicker : string)
    (prices : list PriceBatch.t) (p : TradeVisualizer.ChartDataPoint) :
  In p (TradeVisualizer.mergedData tl selectedTicker prices []) ->
  TradeVisualizer.trade p = None.
Proof.
  intros Hin.
  destruct (point_trade_source _ _ _ _ _ Hin) as (b & _ & Hb).
  rewrite Hb. reflexivity.
Qed.

Lemma listeners_never_throw :
  (forall d es, exists es', App.onPortfolioState d es = Ok es')
  /\ (forall q es, exists es', App.onPositions q es = Ok es')
  /\ (forall q es, exists es', App.onLatestBatch q es = Ok es')
  /\ (forall q es, exists es', App.onTradeActions q es = Ok es').
Proof.
  repeat split.
  - intros [d|] es; eexists; [apply onPortfolioState_present|apply onPortfolioState_absent].
  - intros q es. eexists. reflexivity.
  - intros [|d q] es; eexists; [apply onLatestBatch_empty|apply onLatestBatch_first].
  - intros q es. eexists. reflexivity.
Qed.

(** C8.  Absent data is a loading or an empty state and no operation throws:
    without a state document or without positions the summary is the cash
    (or zero) with no profit or loss; the listeners and the summary return
    for every snapshot; without a price batch there is no index quote, no
    timestamp and no ticker, and the chart shows its notice; without a batch
    that lists the selected ticker the merge is empty and the chart shows
    "No price history found"; without trade actions no point has a marker
    and the actions panel shows its skeleton while loading and its notice
    afterwards. *)
Theorem absent_data_is_an_empty_state :
  (forall ps, App.summary None ps = Ok (App.mkSummary JS.zero JS.zero JS.zero))
  /\ (forall st,
         App.summary (Some st) []
         = Ok (App.mkSummary (JS.num_or (PortfolioState.cash st) JS.zero)
                 JS.zero JS.zero))
  /\ (forall st ps, exists r, App.summary st ps = Ok r)
  /\ ((forall d es, exists es', App.onPortfolioState d es = Ok es')
      /\ (forall q es, exists es', App.onPositions q es = Ok es')
      /\ (forall q es, exists es', App.onLatestBatch q es = Ok es')
      /\ (forall q es, exists es', App.onTradeActions q es = Ok es'))
  /\ (forall es, App.onPortfolioState None es = Ok (App.checkAllLoaded es))
  /\ (forall es, App.onLatestBatch [] es = Ok (App.checkAllLoaded es))
  /\ App.egx30 None = None
  /\ (forall toLocaleString, App.formatTimestamp toLocaleString None = "N/A")
  /\ App.availableTickers None = []
  /\ (forall s, TradeVisualizer.render [] s = TradeVisualizer.NoStockData)
  /\ (forall tl selectedTicker prices actions,
         (forall b, In b prices -> hasTicker selectedTicker b = false) ->
         TradeVisualizer.mergedData tl selectedTicker prices actions = [])
  /\ (forall tl selectedTicker prices q tickers s,
         tickers <> [] ->
         (forall b, In b prices -> hasTicker selectedTicker b = false) ->
         TradeVisualizer.render tickers
           (TradeVisualizer.onActions tl selectedTicker prices q s)
         = TradeVisualizer.Chart tickers (TradeVisualizer.selectedTicker s) false true [])
  /\ (forall tl selectedTicker prices p,
         In p (TradeVisualizer.mergedData tl selectedTicker prices []) ->
         TradeVisualizer.TradeMarker p = None)
  /\ (forall loading,
         App.actionsPanel loading []
         = App.mkPanel (if loading then App.Skeletons 5 else App.Table []) (negb loading)).
Proof.
  split; [exact summary_no_state|].
  split; [exact summary_empty|].
  split.
  { exact summary_returns. }
  split; [exact listeners_never_throw|].
  split; [exact onPortfolioState_absent|].
  split; [exact onLatestBatch_empty|].
  split; [reflexivity|].
  split; [reflexivity|].
  split; [reflexivity|].
  split; [reflexivity|].
  split; [exact mergedData_without_ticker|].
  split.
  { intros tl tk prices q tickers s Hne Hnone.
    unfold TradeVisualizer.onActions. rewrite mergedData_without_ticker by exact Hnone.
    destruct tickers as [|t tickers]; [contradiction|]. reflexivity. }
  split.
  { intros tl tk prices p Hin. unfold TradeVisualizer.TradeMarker.
    rewrite (mergedData_without_actions _ _ _ _ Hin). reflexivity. }
  intros [|]; reflexivity.
Qed.

Lemma absent_data_witness :
  TradeVisualizer.mergedData Fixture.clock "COMI" [Fixture.batchWithout] [Fixture.buy] = []
  /\ TradeVisualizer.render ["COMI"]
       (TradeVisualizer.onActions Fixture.clock "COMI" [Fixture.batchWithout] []
          (TradeVisualizer.mkState "COMI" [] true))
     = TradeVisualizer.Chart ["COMI"] "COMI" false true [].
Proof.
  assert (H : forall b, In b [Fixture.batchWithout] -> hasTicker "COMI" b = false).
  { intros b [<-|[]]. reflexivity. }
  destruct absent_data_is_an_empty_state
    as (_ & _ & _ & _ & _ & _ & _ & _ & _ & _ & Hmerge & Hrender & _).
  split.
  - apply Hmerge. exact H.
  - apply (Hrender Fixture.clock "COMI" [Fixture.batchWithout] [] ["COMI"]
             (TradeVisualizer.mkState "COMI" [] true)); [discriminate|exact H].
Defined.

(** * Further properties of the code *)

(** ** The listeners of [App] over a run *)

Lemma checkAllLoaded_count (es : App.Effect * App.State) :
  App.loadedCount (App.checkAllLoaded es).1 = S (App.loadedCount es.1)
  /\ App.loading (App.checkAllLoaded es).2
     = App.loading es.2 && (S (App.loadedCount es.1) <? 4)%nat.
Proof.
  unfold App.checkAllLoaded. cbn [App.loadedCount App.collectionsToWatch length].
  destruct (Nat.leb_spec 4 (S (App.loadedCount es.1))) as [H|H];
    cbn [fst snd App.loadedCount App.setLoading App.loading]; split; try reflexivity.
  - apply Nat.ltb_ge in H. rewrite H. symmetry. apply andb_false_r.
  - apply Nat.ltb_lt in H. rewrite H. symmetry. apply andb_true_r.
Qed.

(** One callback: the other cells of the state are kept, the cell of the
    snapshot is written when the snapshot carries a record, the counter runs. *)
Lemma callback_step (snap : Dashboard.Snapshot) (es : App.Effect * App.State) :
  exists s1,
    AppRun.callback snap es = Ok (App.checkAllLoaded (es.1, s1))
    /\ App.loading s1 = App.loading es.2
    /\ App.portfolioState s1
       = match AppRun.stateOf snap with
         | Some d => Some d
         | None => App.portfolioState es.2
         end
    /\ App.portfolioPositions s1
       = default (App.portfolioPositions es.2) (AppRun.positionsOf snap)
    /\ App.latestBatch s1
       = match AppRun.batchOf snap with
         | Some b => Some b
         | None => App.latestBatch es.2
         end
    /\ App.tradeActions s1 = default (App.tradeActions es.2) (AppRun.actionsOf snap).
Proof.
  destruct es as [e s]. destruct snap as [[d|]|q|[|d q]|q]; eexists;
    (split; [reflexivity|]); repeat split; reflexivity.
Qed.

Lemma callbacks_snoc (snaps : list Dashboard.Snapshot) (snap : Dashboard.Snapshot)
    (es : App.Effect * App.State) :
  AppRun.callbacks (snaps ++ [snap]) es
  = (es' ← AppRun.callbacks snaps es; AppRun.callback snap es').
Proof. unfold AppRun.callbacks. rewrite foldl_snoc. reflexivity. Qed.

(** X1.  Over any run of the listeners of [App] the counter of the effect
    counts the callbacks, whichever listeners they are: the loading flag is
    never switched on, and it is off from the fourth callback on. *)
Theorem loading_ends_with_the_fourth_callback
    (snaps : list Dashboard.Snapshot) (es : App.Effect * App.State) :
  exists es',
    AppRun.callbacks snaps es = Ok es'
    /\ App.unsubscribers es'.1 = App.unsubscribers es.1
    /\ App.loadedCount es'.1 = (App.loadedCount es.1 + length snaps)%nat
    /\ App.loading es'.2
       = App.loading es.2
         && ((length snaps =? 0)%nat
             || (App.loadedCount es.1 + length snaps <? 4)%nat).
Proof.
  induction snaps as [|snap snaps IH] using rev_ind.
  - exists es. split; [reflexivity|]. split; [reflexivity|].
    split; [cbn; lia|]. cbn. symmetry. apply andb_true_r.
  - destruct IH as (es1 & Hrun & Hu & Hc & Hl).
    rewrite callbacks_snoc, Hrun. cbn [mbind result_bind].
    destruct (callback_step snap es1) as (s1 & Hcb & Hl1 & _).
    eexists. split; [exact Hcb|].
    destruct (checkAllLoaded_count (es1.1, s1)) as (Hc' & Hl').
    cbn [fst snd] in Hc', Hl'.
    split; [rewrite checkAllLoaded_unsubscribers; exact Hu|].
    rewrite Hc', Hl', Hl1, Hl, Hc, length_app. cbn [length].
    split; [lia|].
    replace (App.loadedCount es.1 + (length snaps + 1))%nat
      with (S (App.loadedCount es.1 + length snaps)) by lia.
    replace (length snaps + 1 =? 0)%nat with false
      by (symmetry; apply Nat.eqb_neq; lia).
    cbn [orb].
    destruct (App.loading es.2); [|reflexivity]. cbn [andb].
    destruct (Nat.ltb_spec (S (App.loadedCount es.1 + length snaps)) 4) as [H|H].
    + replace (App.loadedCount es.1 + length snaps <? 4)%nat with true
        by (symmetry; apply Nat.ltb_lt; lia).
      rewrite orb_true_r. reflexivity.
    + apply andb_false_r.
Qed.

Lemma last_omap_snoc {A B} (f : A -> option B) (l : list A) (x : A) :
  last (omap f (l ++ [x]))
  = match f x with
    | Some y => Some y
    | None => last (omap f l)
    end.
Proof.
  rewrite omap_app.
  change (omap f [x]) with (match f x with Some y => [y] | None => [] end).
  destruct (f x); [apply last_snoc|rewrite app_nil_r; reflexivity].
Qed.

(** X2.  Over any run of the listeners of [App], in whatever order the
    collections deliver, each cell holds what the last snapshot that carried
    a record for it wrote: the last state document that existed, the
    positions and the actions of the last snapshot of their collection, the
    first batch of the last prices snapshot that was not empty; a cell no
    snapshot wrote holds what it held before. *)
Theorem cells_hold_the_last_record
    (snaps : list Dashboard.Snapshot) (es : App.Effect * App.State) :
  exists es',
    AppRun.callbacks snaps es = Ok es'
    /\ App.portfolioState es'.2
       = match last (omap AppRun.stateOf snaps) with
         | Some d => Some d
         | None => App.portfolioState es.2
         end
    /\ App.portfolioPositions es'.2
       = default (App.portfolioPositions es.2) (last (omap AppRun.positionsOf snaps))
    /\ App.latestBatch es'.2
       = match last (omap AppRun.batchOf snaps) with
         | Some b => Some b
         | None => App.latestBatch es.2
         end
    /\ App.tradeActions es'.2
       = default (App.tradeActions es.2) (last (omap AppRun.actionsOf snaps)).
Proof.
  induction snaps as [|snap snaps IH] using rev_ind.
  - exists es. repeat split; reflexivity.
  - destruct IH as (es1 & Hrun & Hs & Hp & Hb & Ha).
    rewrite callbacks_snoc, Hrun. cbn [mbind result_bind].
    destruct (callback_step snap es1) as (s1 & Hcb & _ & Hs1 & Hp1 & Hb1 & Ha1).
    eexists. split; [exact Hcb|].
    destruct (checkAllLoaded_cells (es1.1, s1)) as (Cs & Cp & Cb & Ca).
    cbn [snd] in Cs, Cp, Cb, Ca.
    rewrite Cs, Cp, Cb, Ca, Hs1, Hp1, Hb1, Ha1, Hs, Hp, Hb, Ha, !last_omap_snoc.
    repeat split.
    + destruct (AppRun.stateOf snap); reflexivity.
    + destruct (AppRun.positionsOf snap); reflexivity.
    + destruct (AppRun.batchOf snap); reflexivity.
    + destruct (AppRun.actionsOf snap); reflexivity.
Qed.

(** ** The ticker list and the index quote *)

Lemma string_compare_trans (a b c : string) :
  String.compare a b <> Gt -> String.compare b c <> Gt -> String.compare a c <> Gt.
Proof.
  revert b c. induction a as [|x a IH]; intros [|y b] [|z c]; simpl;
    try congruence.
  unfold Ascii.compare.
  destruct (N.compare_spec (Ascii.N_of_ascii x) (Ascii.N_of_ascii y)) as [Exy|Lxy|Gxy];
    destruct (N.compare_spec (Ascii.N_of_ascii y) (Ascii.N_of_ascii z)) as [Eyz|Lyz|Gyz];
    try congruence.
  - rewrite Exy, Eyz, N.compare_refl. apply IH.
  - intros _ _. rewrite Exy. apply N.compare_lt_iff in Lyz. rewrite Lyz. discriminate.
  - intros _ _. rewrite <- Eyz. apply N.compare_lt_iff in Lxy. rewrite Lxy. discriminate.
  - intros _ _. pose proof (N.lt_trans _ _ _ Lxy Lyz) as H.
    apply N.compare_lt_iff in H. rewrite H. discriminate.
Qed.

Lemma string_le_iff (a b : string) : App.string_le a b <-> String.compare a b <> Gt.
Proof.
  unfold App.string_le, String.leb. destruct (String.compare a b); split;
    congruence.
Qed.

#[local] Instance string_le_total : Total App.string_le.
Proof. intros a b. apply String.leb_total. Qed.

#[local] Instance string_le_trans : Transitive App.string_le.
Proof.
  intros a b c Hab Hbc. apply string_le_iff.
  apply (string_compare_trans a b c); apply string_le_iff; assumption.
Qed.

Lemma string_le_refl (a : string) : App.string_le a a.
Proof. destruct (String.leb_total a a); assumption. Qed.

Lemma find_split {A} (f : A -> bool) (l : list A) (x : A) :
  List.find f l = Some x ->
  exists l1 l2, l = l1 ++ x :: l2 /\ f x = true /\ forall y, In y l1 -> f y = false.
Proof.
  induction l as [|a l IH]; simpl; [discriminate|].
  destruct (f a) eqn:E.
  - intros [= ->]. exists [], l. split; [reflexivity|]. split; [exact E|]. intros y [].
  - intros H. destruct (IH H) as (l1 & l2 & -> & Hx & Hl1).
    exists (a :: l1), l2. split; [reflexivity|]. split; [exact Hx|].
    intros y [<-|Hy]; [exact E|exact (Hl1 y Hy)].
Qed.

Lemma availableTickers_In (b : PriceBatch.t) (t : string) :
  In t (App.availableTickers (Some b))
  <-> (exists q, In q (PriceBatch.symbols b) /\ PriceSymbol.ticker q = t)
      /\ JS.startsWith t "EGX" = false.
Proof.
  unfold App.availableTickers.
  rewrite <- list_elem_of_In, merge_sort_Permutation, list_elem_of_In.
  rewrite List.filter_In, List.in_map_iff, negb_true_iff.
  split; intros [(q & H1 & H2) H3]; (split; [exists q; tauto|exact H3]).
Qed.

(** X3.  The tickers offered by the selector are those of the latest batch
    that do not start with "EGX", each as often as the batch lists it, in
    ascending order. *)
Theorem availableTickers_sorted_without_indices (b : PriceBatch.t) :
  let tickers := App.availableTickers (Some b) in
  StronglySorted App.string_le tickers
  /\ Permutation tickers
       (List.filter (fun t => negb (JS.startsWith t "EGX"))
          (map PriceSymbol.ticker (PriceBatch.symbols b)))
  /\ (forall t,
         In t tickers
         <-> (exists q, In q (PriceBatch.symbols b) /\ PriceSymbol.ticker q = t)
             /\ JS.startsWith t "EGX" = false).
Proof.
  intros tickers. split; [|split].
  - apply StronglySorted_merge_sort; apply _.
  - apply merge_sort_Permutation.
  - apply availableTickers_In.
Qed.

(** X4.  The index quote of the KPI tile is the first quote of the latest
    batch whose ticker is "EGX30"; there is none exactly when the batch lists
    no such ticker (or there is no batch); and its ticker is never among the
    tickers of the selector. *)
Theorem egx30_is_the_first_index_quote (latestBatch : option PriceBatch.t) :
  (forall q,
      App.egx30 latestBatch = Some q ->
      PriceSymbol.ticker q = "EGX30"
      /\ (exists b l1 l2,
             latestBatch = Some b
             /\ PriceBatch.symbols b = l1 ++ q :: l2
             /\ forall s, In s l1 -> PriceSymbol.ticker s <> "EGX30")
      /\ ~ In (PriceSymbol.ticker q) (App.availableTickers latestBatch))
  /\ (App.egx30 latestBatch = None
      <-> forall b, latestBatch = Some b ->
                    forall s, In s (PriceBatch.symbols b) ->
                              PriceSymbol.ticker s <> "EGX30").
Proof.
  destruct latestBatch as [b|]; cbn [App.egx30 mbind option_bind].
  - split.
    + intros q Hq. destruct (find_split _ _ _ Hq) as (l1 & l2 & Hl & Ht & Hl1).
      apply String.eqb_eq in Ht. split; [exact Ht|]. split.
      * exists b, l1, l2. split; [reflexivity|]. split; [exact Hl|].
        intros s Hs. apply String.eqb_neq. exact (Hl1 s Hs).
      * rewrite availableTickers_In, Ht. intros [_ H]. discriminate H.
    + split.
      * intros Hnone b' [= <-] s Hs. apply String.eqb_neq.
        exact (List.find_none _ _ Hnone s Hs).
      * intros H. apply find_none_existsb. apply not_true_is_false. intros Hex.
        apply List.existsb_exists in Hex. destruct Hex as (s & Hs & Ht).
        apply String.eqb_eq in Ht. exact (H b eq_refl s Hs Ht).
  - split; [discriminate|]. split; [discriminate|reflexivity].
Qed.

Lemma egx30_witness :
  PriceSymbol.ticker Fixture.index = "EGX30"
  /\ ~ In "EGX30"
         (App.availableTickers
            (Some (PriceBatch.mk "b3" Fixture.t1
                     [Fixture.quote; Fixture.index]))).
Proof.
  destruct (proj1 (egx30_is_the_first_index_quote
                     (Some (PriceBatch.mk "b3" Fixture.t1
                              [Fixture.quote; Fixture.index])))
              Fixture.index eq_refl)
    as (Ht & _ & Hn).
  split; [exact Ht|exact Hn].
Defined.

Lemma StronglySorted_head_least {A} (R : relation A) (x : A) (l : list A) :
  R x x -> StronglySorted R (x :: l) -> forall y, In y (x :: l) -> R x y.
Proof.
  intros Hx Hs y [<-|Hy]; [exact Hx|].
  apply StronglySorted_cons in Hs. destruct Hs as [Hall _].
  rewrite List.Forall_forall in Hall. exact (Hall y Hy).
Qed.

(** X5.  The default-ticker effect leaves a non-empty selection alone; on the
    first display it selects the least ticker of the selector, which is a
    ticker of the latest batch that does not start with "EGX", and it
    touches neither the chart data nor the loading flag. *)
Theorem defaultTicker_selects_the_least_ticker :
  (forall availableTickers s,
      TradeVisualizer.selectedTicker s <> "" ->
      TradeVisualizer.defaultTicker availableTickers s = s)
  /\ (forall b chartData loading,
         App.availableTickers (Some b) <> [] ->
         let s := TradeVisualizer.defaultTicker (App.availableTickers (Some b))
                    (TradeVisualizer.mkState "" chartData loading) in
         In (TradeVisualizer.selectedTicker s) (App.availableTickers (Some b))
         /\ (exists q, In q (PriceBatch.symbols b)
                       /\ PriceSymbol.ticker q = TradeVisualizer.selectedTicker s)
         /\ JS.startsWith (TradeVisualizer.selectedTicker s) "EGX" = false
         /\ (forall t, In t (App.availableTickers (Some b)) ->
                       App.string_le (TradeVisualizer.selectedTicker s) t)
         /\ TradeVisualizer.chartData s = chartData
         /\ TradeVisualizer.loading s = loading).
Proof.
  split.
  - intros ts s Hsel. unfold TradeVisualizer.defaultTicker.
    apply String.eqb_neq in Hsel. rewrite Hsel, andb_false_r. reflexivity.
  - intros b chartData loading Hne s.
    pose proof (availableTickers_sorted_without_indices b) as (Hsorted & _ & _).
    pose proof (availableTickers_In b) as Hin.
    subst s. destruct (App.availableTickers (Some b)) as [|t ts]; [contradiction|].
    cbn [TradeVisualizer.defaultTicker length Nat.ltb Nat.leb andb
         TradeVisualizer.selectedTicker String.eqb lookup list_lookup
         TradeVisualizer.setSelectedTicker TradeVisualizer.chartData
         TradeVisualizer.loading].
    assert (Ht : In t (t :: ts)) by (left; reflexivity).
    split; [exact Ht|]. apply Hin in Ht. destruct Ht as [Hq Hpre].
    split; [exact Hq|]. split; [exact Hpre|].
    split; [|split; reflexivity].
    apply StronglySorted_head_least; [apply string_le_refl|exact Hsorted].
Qed.

Lemma defaultTicker_witness :
  TradeVisualizer.selectedTicker
    (TradeVisualizer.defaultTicker
       (App.availableTickers (Some Fixture.batchNew))
       (TradeVisualizer.mkState "" [] false)) = "COMI"
  /\ App.string_le "COMI" "COMI".
Proof.
  assert (Hne : App.availableTickers (Some Fixture.batchNew) <> [])
    by (vm_compute; discriminate).
  destruct (proj2 defaultTicker_selects_the_least_ticker Fixture.batchNew [] false Hne)
    as (_ & _ & _ & Hleast & _).
  split; [reflexivity|].
  apply (Hleast "COMI"). vm_compute. left. reflexivity.
Defined.

(** ** The chart against the store *)

Lemma step_TvEffect tl (w : Dashboard.World) (c : Ascii.ascii) (rest : string) :
  TradeVisualizer.selectedTicker (Dashboard.tvState w) = String c rest ->
  Dashboard.step tl w Dashboard.TvEffect
  = Dashboard.mk
      (Firestore.mk (Firestore.documents (Dashboard.firestore w))
         (<[Firestore.nextId (Dashboard.firestore w)
            := (TradeVisualizer.pricesQuery, TvPrices (String c rest))]>
            (Firestore.listeners (Dashboard.firestore w)))
         (S (Firestore.nextId (Dashboard.firestore w))))
      (Dashboard.appState w) (Dashboard.appEffect w)
      (TradeVisualizer.setLoading true (Dashboard.tvState w))
      (Some (TradeVisualizer.mkEffect (Firestore.nextId (Dashboard.firestore w)))).
Proof.
  intros Hsel. cbn [Dashboard.step]. unfold TradeVisualizer.useEffect.
  rewrite Hsel. cbn [String.eqb].
  cbn [TradeVisualizer.setLoading TradeVisualizer.selectedTicker Firestore.onSnapshot].
  rewrite Hsel. reflexivity.
Qed.

Lemma deliver_TvPrices tl (w : Dashboard.World) (h : nat) (ref : Firestore.Reference)
    (t : string) (q : Firestore.QuerySnapshot PriceBatch.t) :
  Firestore.listeners (Dashboard.firestore w) !! h = Some (ref, TvPrices t) ->
  Dashboard.deliver tl h (Dashboard.PricesSnapshot q) w
  = Dashboard.mk
      (Firestore.mk (Firestore.documents (Dashboard.firestore w))
         (<[Firestore.nextId (Dashboard.firestore w)
            := (TradeVisualizer.actionsQuery t, TvActions t (map Firestore.data q))]>
            (Firestore.listeners (Dashboard.firestore w)))
         (S (Firestore.nextId (Dashboard.firestore w))))
      (Dashboard.appState w) (Dashboard.appEffect w)
      (Dashboard.tvState w) (Dashboard.tvEffect w).
Proof. intros H. unfold Dashboard.deliver. rewrite H. reflexivity. Qed.

Lemma deliver_TvActions tl (w : Dashboard.World) (h : nat) (ref : Firestore.Reference)
    (t : string) (prices : list PriceBatch.t)
    (q : Firestore.QuerySnapshot ActionData.t) :
  Firestore.listeners (Dashboard.firestore w) !! h = Some (ref, TvActions t prices) ->
  Dashboard.deliver tl h (Dashboard.ActionsSnapshot q) w
  = Dashboard.mk (Dashboard.firestore w) (Dashboard.appState w) (Dashboard.appEffect w)
      (TradeVisualizer.onActions tl t prices q (Dashboard.tvState w))
      (Dashboard.tvEffect w).
Proof. intros H. unfold Dashboard.deliver. rewrite H. reflexivity. Qed.

(** X6.  One round of the chart for a non-empty ticker, from any state of the
    dashboard: the effect switches the loading flag on and subscribes the
    prices query (the latest 100 batches); a price snapshot and then an
    action snapshot for the nested listener leave the chart with the merge
    of the two snapshots and the loading flag off. *)
Theorem chart_round_gives_the_merge
    (toLocaleTimeString : Z -> string) (fs : Firestore.t Callback)
    (appState : App.State) (appEffect : option App.Effect)
    (c : Ascii.ascii) (rest : string)
    (chartData : list TradeVisualizer.ChartDataPoint) (loading : bool)
    (priceSnapshot : Firestore.QuerySnapshot PriceBatch.t)
    (actionSnapshot : Firestore.QuerySnapshot ActionData.t) :
  let ticker := String c rest in
  let n := Firestore.nextId fs in
  let w0 := Dashboard.mk fs appState appEffect
                         (TradeVisualizer.mkState ticker chartData loading) None in
  let w1 := Dashboard.run toLocaleTimeString w0 [Dashboard.TvEffect] in
  let w := Dashboard.run toLocaleTimeString w0
             [Dashboard.TvEffect;
              Dashboard.Deliver n (Dashboard.PricesSnapshot priceSnapshot);
              Dashboard.Deliver (S n) (Dashboard.ActionsSnapshot actionSnapshot)] in
  Dashboard.tvState w1 = TradeVisualizer.mkState ticker chartData true
  /\ Firestore.listeners (Dashboard.firestore w1) !! n
     = Some (Firestore.query ["prices"] None ("createdAt", Firestore.desc) (Some 100%nat),
             TvPrices ticker)
  /\ Dashboard.tvState w
     = TradeVisualizer.mkState ticker
         (TradeVisualizer.mergedData toLocaleTimeString ticker
            (map Firestore.data priceSnapshot)
            (map (fun d => action_withId (Firestore.id d) (Firestore.data d))
                 actionSnapshot))
         false.
Proof.
  intros ticker n w0 w1 w. subst w w1. unfold Dashboard.run. cbn [foldl].
  rewrite (step_TvEffect toLocaleTimeString w0 c rest eq_refl).
  cbn [Dashboard.firestore Dashboard.tvState Firestore.listeners Firestore.nextId
       Dashboard.appState Dashboard.appEffect Firestore.documents w0].
  split; [reflexivity|]. split; [apply lookup_insert_eq|].
  cbn [Dashboard.step].
  erewrite deliver_TvPrices by (cbn [Dashboard.firestore Firestore.listeners];
                                apply lookup_insert_eq).
  cbn [Dashboard.firestore Dashboard.tvState Firestore.listeners Firestore.nextId
       Dashboard.appState Dashboard.appEffect Dashboard.tvEffect Firestore.documents].
  erewrite deliver_TvActions by (cbn [Dashboard.firestore Firestore.listeners];
                                 apply lookup_insert_eq).
  reflexivity.
Qed.

(** X7.  After a change of ticker the nested listener of the previous ticker
    still answers: an action snapshot delivered to it replaces the chart by
    the merge for the previous ticker and switches the loading flag off,
    while the selector shows the new ticker and the new effect has received
    nothing yet. *)
Theorem previous_ticker_listener_overwrites_the_chart
    (toLocaleTimeString : Z -> string) (fs : Firestore.t Callback)
    (appState : App.State) (appEffect : option App.Effect)
    (c1 : Ascii.ascii) (rest1 : string) (c2 : Ascii.ascii) (rest2 : string)
    (chartData : list TradeVisualizer.ChartDataPoint) (loading : bool)
    (priceSnapshot : Firestore.QuerySnapshot PriceBatch.t)
    (actionSnapshot : Firestore.QuerySnapshot ActionData.t) :
  let previous := String c1 rest1 in
  let selected := String c2 rest2 in
  let n := Firestore.nextId fs in
  let w0 := Dashboard.mk fs appState appEffect
                         (TradeVisualizer.mkState previous chartData loading) None in
  let w := Dashboard.run toLocaleTimeString w0
             [Dashboard.TvEffect;
              Dashboard.Deliver n (Dashboard.PricesSnapshot priceSnapshot);
              Dashboard.TvTickerChange selected;
              Dashboard.TvCleanup;
              Dashboard.TvEffect;
              Dashboard.Deliver (S n) (Dashboard.ActionsSnapshot actionSnapshot)] in
  Dashboard.tvEffect w = Some (TradeVisualizer.mkEffect (S (S n)))
  /\ Dashboard.tvState w
     = TradeVisualizer.mkState selected
         (TradeVisualizer.mergedData toLocaleTimeString previous
            (map Firestore.data priceSnapshot)
            (map (fun d => action_withId (Firestore.id d) (Firestore.data d))
                 actionSnapshot))
         false.
Proof.
  intros previous selected n w0 w. subst w. unfold Dashboard.run. cbn [foldl].
  rewrite (step_TvEffect toLocaleTimeString w0 c1 rest1 eq_refl).
  cbn [Dashboard.firestore Dashboard.tvState Firestore.listeners Firestore.nextId
       Dashboard.appState Dashboard.appEffect Firestore.documents w0].
  cbn [Dashboard.step].
  erewrite deliver_TvPrices by (cbn [Dashboard.firestore Firestore.listeners];
                                apply lookup_insert_eq).
  cbn [Dashboard.firestore Dashboard.tvState Firestore.listeners Firestore.nextId
       Dashboard.appState Dashboard.appEffect Dashboard.tvEffect Firestore.documents
       TradeVisualizer.handleTickerChange TradeVisualizer.setSelectedTicker
       TradeVisualizer.setLoading TradeVisualizer.selectedTicker
       TradeVisualizer.chartData TradeVisualizer.loading
       TradeVisualizer.cleanup TradeVisualizer.unsubscribePrices Firestore.unsubscribe].
  fold n.
  match goal with
  | |- context [TradeVisualizer.useEffect ?s ?f] =>
      change (TradeVisualizer.useEffect s f)
        with (Some (TradeVisualizer.mkEffect (Firestore.nextId f)),
              TradeVisualizer.setLoading true s,
              (Firestore.onSnapshot TradeVisualizer.pricesQuery
                 (TvPrices (TradeVisualizer.selectedTicker
                              (TradeVisualizer.setLoading true s))) f).2)
  end.
  cbn [Firestore.onSnapshot Firestore.nextId Firestore.listeners Firestore.documents
       snd TradeVisualizer.setLoading TradeVisualizer.selectedTicker
       TradeVisualizer.chartData].
  erewrite deliver_TvActions.
  2:{ cbn [Dashboard.firestore Firestore.listeners].
      unfold TradeVisualizer.cleanup, Firestore.unsubscribe.
      cbn [Firestore.nextId Firestore.listeners TradeVisualizer.unsubscribePrices].
      rewrite lookup_insert_ne by lia. rewrite lookup_delete_ne by lia.
      apply lookup_insert_eq. }
  split; reflexivity.
Qed.

(** X8.  While the chart's effect is running, every price snapshot delivered
    to its listener subscribes one more actions listener, which captures the
    batches of that snapshot; the earlier ones stay registered, and the
    loading flag stays on until an action snapshot arrives. *)
Theorem every_price_snapshot_subscribes_a_listener
    (toLocaleTimeString : Z -> string) (fs : Firestore.t Callback)
    (appState : App.State) (appEffect : option App.Effect)
    (c : Ascii.ascii) (rest : string)
    (chartData : list TradeVisualizer.ChartDataPoint) (loading : bool)
    (priceSnapshots : list (Firestore.QuerySnapshot PriceBatch.t)) :
  let ticker := String c rest in
  let n := Firestore.nextId fs in
  let w0 := Dashboard.mk fs appState appEffect
                         (TradeVisualizer.mkState ticker chartData loading) None in
  let w := Dashboard.run toLocaleTimeString w0
             (Dashboard.TvEffect
                :: map (fun q => Dashboard.Deliver n (Dashboard.PricesSnapshot q))
                       priceSnapshots) in
  Firestore.nextId (Dashboard.firestore w) = (S n + length priceSnapshots)%nat
  /\ Firestore.listeners (Dashboard.firestore w) !! n
     = Some (TradeVisualizer.pricesQuery, TvPrices ticker)
  /\ (forall i q,
         priceSnapshots !! i = Some q ->
         Firestore.listeners (Dashboard.firestore w) !! (S n + i)%nat
         = Some (TradeVisualizer.actionsQuery ticker,
                 TvActions ticker (map Firestore.data q)))
  /\ Dashboard.tvState w = TradeVisualizer.mkState ticker chartData true.
Proof.
  intros ticker n w0.
  induction priceSnapshots as [|q qs IH] using rev_ind; intros w.
  - subst w. unfold Dashboard.run. cbn [map foldl].
    rewrite (step_TvEffect toLocaleTimeString w0 c rest eq_refl).
    cbn [Dashboard.firestore Dashboard.tvState Firestore.listeners Firestore.nextId w0].
    split; [cbn; lia|]. split; [apply lookup_insert_eq|].
    split; [intros i q' H; destruct i; discriminate H|reflexivity].
  - subst w. cbv zeta in IH. unfold Dashboard.run in *.
    rewrite map_app. cbn [map]. rewrite app_comm_cons, foldl_snoc.
    set (w := foldl _ w0 _) in *.
    destruct IH as (Hn & Hp & Ha & Hs).
    cbn [Dashboard.step].
    rewrite (deliver_TvPrices _ _ _ _ _ _ Hp).
    cbn [Dashboard.firestore Dashboard.tvState Firestore.listeners Firestore.nextId].
    rewrite Hn, length_app. cbn [length].
    split; [lia|]. split; [rewrite lookup_insert_ne by lia; exact Hp|].
    split; [|exact Hs].
    intros i q' Hq. apply lookup_app_Some in Hq. destruct Hq as [Hq|[Hlen Hq]].
    + pose proof (lookup_lt_Some _ _ _ Hq).
      unfold Firestore.QuerySnapshot in *.
      rewrite lookup_insert_ne by lia. apply Ha. exact Hq.
    + unfold Firestore.QuerySnapshot in *.
      destruct (i - length qs)%nat as [|k] eqn:Ek; [|destruct k; discriminate Hq].
      injection Hq as <-. replace (S n + i)%nat with (S n + length qs)%nat by lia.
      apply lookup_insert_eq.
Qed.

Lemma every_price_snapshot_witness :
  Firestore.listeners
    (Dashboard.firestore
       (Dashboard.run Fixture.clock
          (Dashboard.mk (Firestore.mk ∅ ∅ 0) App.initialState None
                        (TradeVisualizer.mkState "COMI" [] false) None)
          [Dashboard.TvEffect;
           Dashboard.Deliver 0 (Dashboard.PricesSnapshot []);
           Dashboard.Deliver 0
             (Dashboard.PricesSnapshot [Firestore.mkDoc "d1" Fixture.batchOld])]))
    !! 2%nat
  = Some (TradeVisualizer.actionsQuery "COMI", TvActions "COMI" [Fixture.batchOld]).
Proof.
  exact (proj1 (proj2 (proj2
           (every_price_snapshot_subscribes_a_listener Fixture.clock
              (Firestore.mk ∅ ∅ 0) App.initialState None (Ascii.ascii_of_nat 67) "OMI" [] false
              [[]; [Firestore.mkDoc "d1" Fixture.batchOld]])))
           1%nat [Firestore.mkDoc "d1" Fixture.batchOld] eq_refl).
Defined.

(** X9.  Without a ticker to select (no batch yet, or a batch with index
    tickers only) the default-ticker effect and the subscription effect
    change nothing: no listener is subscribed and the loading flag of the
    chart is not switched on. *)
Theorem no_ticker_no_subscription
    (toLocaleTimeString : Z -> string) (w : Dashboard.World)
    (Hsel : TradeVisualizer.selectedTicker (Dashboard.tvState w) = "")
    (Hnone : App.availableTickers (App.latestBatch (Dashboard.appState w)) = []) :
  Dashboard.run toLocaleTimeString w [Dashboard.TvDefaultTicker; Dashboard.TvEffect]
  = Dashboard.mk (Dashboard.firestore w) (Dashboard.appState w) (Dashboard.appEffect w)
                 (Dashboard.tvState w) None.
Proof.
  unfold Dashboard.run. cbn [foldl Dashboard.step]. rewrite Hnone.
  unfold TradeVisualizer.defaultTicker. cbn [length Nat.ltb Nat.leb andb].
  cbn [Dashboard.tvState Dashboard.firestore Dashboard.appState Dashboard.appEffect].
  unfold TradeVisualizer.useEffect. rewrite Hsel. reflexivity.
Qed.

Lemma no_ticker_no_subscription_witness :
  Dashboard.run Fixture.clock (Dashboard.initial ∅)
    [Dashboard.TvDefaultTicker; Dashboard.TvEffect]
  = Dashboard.initial ∅.
Proof.
  exact (no_ticker_no_subscription Fixture.clock (Dashboard.initial ∅) eq_refl eq_refl).
Defined.

(** ** The KPI tiles *)

(** X10.  The index tile is a placeholder while the dashboard is loading and
    for as long as the latest batch has no "EGX30" quote; whenever it shows
    a value, that is the close of the index quote to two decimals (the
    "N/A" text is only passed to a tile that is a placeholder), with a
    change line that is green and up exactly when the change is not
    negative. *)
Theorem index_tile_waits_for_the_index_quote
    (toFixed2 : number -> string) (s : App.State) :
  let view := Stat.render toFixed2 (Tiles.indexTile toFixed2 s) in
  (Stat.body view = Stat.Placeholder
   <-> App.loading s = true \/ App.egx30 (App.latestBatch s) = None)
  /\ (forall value line,
         Stat.body view = Stat.Shown value line ->
         exists q,
           App.egx30 (App.latestBatch s) = Some q
           /\ App.loading s = false
           /\ value = toFixed2 (PriceSymbol.close q)
           /\ line
              = Some (Stat.mkLine
                        (if JS.ge (PriceSymbol.changePct q) JS.zero
                         then "text-green-400" else "text-red-400")
                        (if JS.ge (PriceSymbol.changePct q) JS.zero then "▲" else "▼")
                        (toFixed2 (JS.abs (PriceSymbol.changePct q))))).
Proof.
  intros view. subst view. unfold Tiles.indexTile, Stat.render.
  cbn [Stat.isLoading Stat.value Stat.change Stat.changeIsPositive Stat.label
       default Stat.body].
  destruct (App.egx30 (App.latestBatch s)) as [q|]; destruct (App.loading s);
    cbn [fmap option_fmap option_map orb negb bool_decide decide_rel
         Stat.changeColor Stat.changeSymbol]; split.
  - split; [left; reflexivity|reflexivity].
  - discriminate.
  - split; [discriminate|]. intros [H|H]; discriminate H.
  - intros value line [= <- <-]. exists q. repeat split.
  - split; [left; reflexivity|reflexivity].
  - discriminate.
  - split; [right; reflexivity|reflexivity].
  - discriminate.
Qed.

Lemma index_tile_witness :
  exists q,
    App.egx30 (Some (PriceBatch.mk "b3" Fixture.t1 [Fixture.index])) = Some q
    /\ PriceSymbol.close q = JS.ofZ 20000.
Proof.
  destruct (proj2 (index_tile_waits_for_the_index_quote (fun _ => "20000.00")
                     (App.mkState None [] (Some (PriceBatch.mk "b3" Fixture.t1
                        [Fixture.index])) [] false))
              _ _ eq_refl)
    as (q & Hq & _).
  exists q. split; [exact Hq|].
  injection Hq as <-. reflexivity.
Defined.

Lemma summary_dailyPnL (st : PortfolioState.t) (ps : list PortfolioPosition.t) :
  exists r, App.summary (Some st) ps = Ok r
            /\ App.dailyPnL r = floatSum (unrealizedPnLs ps).
Proof.
  destruct ps as [|p ps].
  - eexists. split; [apply summary_empty|reflexivity].
  - eexists. split; [apply summary_computed; discriminate|reflexivity].
Qed.

(** X11.  The daily P/L of the summary is the sum of the unrealized P/L of
    the positions as [reduce] computes it in binary64 (from 0, in the order
    of the list) when there is a state record, and zero without one,
    whatever the positions; the summary reads nothing of the state but its
    cash. *)
Theorem dailyPnL_is_total_unrealized :
  (forall st ps,
      exists r, App.summary (Some st) ps = Ok r
                /\ App.dailyPnL r = floatSum (unrealizedPnLs ps))
  /\ (forall ps, exists r, App.summary None ps = Ok r /\ App.dailyPnL r = JS.zero)
  /\ (forall st st' ps,
         PortfolioState.cash st = PortfolioState.cash st' ->
         App.summary (Some st) ps = App.summary (Some st') ps).
Proof.
  split; [exact summary_dailyPnL|]. split.
  - intros ps. eexists. split; [apply summary_no_state|reflexivity].
  - intros st st' ps Hcash. destruct ps as [|p ps].
    + rewrite !summary_empty, Hcash. reflexivity.
    + rewrite !summary_computed by discriminate. rewrite Hcash. reflexivity.
Qed.

Lemma dailyPnL_witness :
  App.summary (Some Fixture.state) [Fixture.comi]
  = App.summary (Some (PortfolioState.mk (JS.ofZ 100) JS.zero Fixture.t1 JS.zero))
      [Fixture.comi].
Proof.
  exact (proj2 (proj2 dailyPnL_is_total_unrealized)
           Fixture.state (PortfolioState.mk (JS.ofZ 100) JS.zero Fixture.t1 JS.zero)
           [Fixture.comi] eq_refl).
Defined.

(** X12.  Once the dashboard has loaded, the portfolio tile always shows a
    change line: up and green exactly when there is no state record or the
    binary64 sum of the unrealized P/L of the positions is [>= 0] (so also
    with no positions; a NaN sum is not), down and red otherwise, with the
    absolute value of the percentage of the summary.  The equity and cash
    tiles never show a change line. *)
Theorem portfolio_tile_follows_the_sign_of_the_pnl
    (formatCurrency : number -> string) (toFixed2 : number -> string) (s : App.State)
    (Hloaded : App.loading s = false) :
  (exists (r : App.Summary) (up : bool),
      App.summary (App.portfolioState s) (App.portfolioPositions s) = Ok r
      /\ (exists p,
             Tiles.portfolioValueTile formatCurrency s = Ok p
             /\ Stat.body (Stat.render toFixed2 p)
                = Stat.Shown (formatCurrency (App.portfolioValue r))
                    (Some (Stat.mkLine
                             (if up then "text-green-400" else "text-red-400")
                             (if up then "▲" else "▼")
                             (toFixed2 (JS.abs (App.dailyPnLPct r))))))
      /\ (up = true
          <-> App.portfolioState s = None
              \/ JS.ge (floatSum (unrealizedPnLs (App.portfolioPositions s))) JS.zero
                 = true))
  /\ Stat.body (Stat.render toFixed2 (Tiles.equityTile formatCurrency s))
     = Stat.Shown (formatCurrency (from_option PortfolioState.equity JS.zero
                                     (App.portfolioState s))) None
  /\ Stat.body (Stat.render toFixed2 (Tiles.cashTile formatCurrency s))
     = Stat.Shown (formatCurrency (from_option PortfolioState.cash JS.zero
                                     (App.portfolioState s))) None.
Proof.
  split.
  - assert (Hr : exists r,
               App.summary (App.portfolioState s) (App.portfolioPositions s) = Ok r
               /\ (JS.ge (App.dailyPnL r) JS.zero = true
                   <-> App.portfolioState s = None
                       \/ JS.ge (floatSum (unrealizedPnLs (App.portfolioPositions s)))
                                JS.zero = true)).
    { destruct (App.portfolioState s) as [st|].
      - destruct (summary_dailyPnL st (App.portfolioPositions s)) as (r & Hr & Hpnl).
        exists r. split; [exact Hr|].
        rewrite Hpnl. split; [intros H; right; exact H|].
        intros [H|H]; [discriminate H|exact H].
      - eexists. split; [apply summary_no_state|].
        cbn [App.dailyPnL]. split; [intros _; left; reflexivity|reflexivity]. }
    destruct Hr as (r & Hr & Hup).
    exists r, (JS.ge (App.dailyPnL r) JS.zero). split; [exact Hr|]. split; [|exact Hup].
    unfold Tiles.portfolioValueTile. rewrite Hr. cbn [mbind result_bind mret result_ret].
    eexists. split; [reflexivity|].
    unfold Stat.render.
    cbn [Stat.isLoading Stat.value Stat.change Stat.changeIsPositive default Stat.body].
    rewrite Hloaded.
    destruct (JS.ge (App.dailyPnL r) JS.zero); reflexivity.
  - unfold Tiles.equityTile, Tiles.cashTile, Stat.render.
    cbn [Stat.isLoading Stat.value Stat.change default Stat.body].
    rewrite Hloaded. split; reflexivity.
Qed.

Lemma portfolio_tile_witness :
  Stat.body (Stat.render (fun _ => "0.00")
               (Tiles.cashTile (fun _ => "EGP 100.00") Fixture.appState))
  = Stat.Shown "EGP 100.00" None.
Proof.
  exact (proj2 (proj2 (portfolio_tile_follows_the_sign_of_the_pnl
                         (fun _ => "EGP 100.00") (fun _ => "0.00")
                         Fixture.appState eq_refl))).
Defined.

(** ** More on the chart merge *)

(** X13.  The chart of a longer history extends the chart of its newer part
    to the left: for a delivery that is the newer batches followed by the
    older ones, the merge is the merge of the older batches followed by the
    merge of the newer ones. *)
Theorem mergedData_of_a_longer_history
    (toLocaleTimeString : Z -> string) (selectedTicker : string)
    (newer older : list PriceBatch.t) (actions : list TradeAction.t) :
  TradeVisualizer.mergedData toLocaleTimeString selectedTicker (newer ++ older) actions
  = TradeVisualizer.mergedData toLocaleTimeString selectedTicker older actions
    ++ TradeVisualizer.mergedData toLocaleTimeString selectedTicker newer actions.
Proof.
  rewrite !mergedData_omap, omap_app. apply reverse_app.
Qed.

Lemma point_batch_source tl (selectedTicker : string)
    (prices : list PriceBatch.t) (actions : list TradeAction.t)
    (p : TradeVisualizer.ChartDataPoint) :
  In p (TradeVisualizer.mergedData tl selectedTicker prices actions) ->
  exists b,
    In b prices /\ hasTicker selectedTicker b = true
    /\ TradeVisualizer.chartPoint tl selectedTicker
         (TradeVisualizer.actionsByBatchId actions) b = Some p.
Proof.
  intros Hin.
  apply list_elem_of_In, list_elem_of_lookup in Hin. destruct Hin as (i & Hi).
  destruct (Forall2_lookup_r _ _ _ _ _
              (mergedData_sources tl selectedTicker prices actions) Hi)
    as (b & Hb & Hp).
  exists b. split; [|split; [|exact Hp]];
    apply list_elem_of_lookup_2 in Hb; unfold chartBatches in Hb;
    rewrite elem_of_reverse in Hb; apply list_elem_of_In in Hb;
    apply List.filter_In in Hb; tauto.
Qed.

(** X14.  The map of the merge has exactly the batchIds of the actions as its
    keys, each with an action of the list that has that batchId; so a trade
    shown on the chart is an action of the list whose batchId is that of a
    delivered batch listing the ticker, and an action whose batchId is that
    of no such batch is on no chart point. *)
Theorem markers_are_actions_of_delivered_batches
    (toLocaleTimeString : Z -> string) (selectedTicker : string)
    (prices : list PriceBatch.t) (actions : list TradeAction.t) :
  let byId := TradeVisualizer.actionsByBatchId actions in
  (forall k, is_Some (byId !! k)
             <-> exists a, In a actions /\ TradeAction.batchId a = k)
  /\ (forall k a, byId !! k = Some a -> In a actions /\ TradeAction.batchId a = k)
  /\ (forall p a,
         In p (TradeVisualizer.mergedData toLocaleTimeString selectedTicker prices actions) ->
         TradeVisualizer.trade p = Some a ->
         In a actions
         /\ exists b, In b prices /\ hasTicker selectedTicker b = true
                      /\ TradeAction.batchId a = PriceBatch.batchId b).
Proof.
  intros byId.
  assert (Hval : forall k a, byId !! k = Some a ->
                             In a actions /\ TradeAction.batchId a = k).
  { intros k a Hk. unfold byId in Hk. rewrite actionsByBatchId_lookup in Hk.
    destruct (last_filter_split _ _ _ Hk) as (l1 & l2 & -> & Ha & _).
    split; [apply in_elt|]. apply String.eqb_eq. exact Ha. }
  split; [|split; [exact Hval|]].
  - intros k. unfold byId. rewrite actionsByBatchId_lookup, last_filter_is_Some.
    split; intros (a & Ha & Hk); exists a; (split; [exact Ha|]);
      apply String.eqb_eq; exact Hk.
  - intros p a Hin Ha.
    destruct (point_batch_source _ _ _ _ _ Hin) as (b & Hb & Ht & Hp).
    unfold TradeVisualizer.chartPoint in Hp.
    destruct (List.find _ (PriceBatch.symbols b)); [|discriminate].
    injection Hp as <-. cbn [TradeVisualizer.trade] in Ha.
    destruct (Hval _ _ Ha) as (Hina & Hid).
    split; [exact Hina|]. exists b. auto.
Qed.

Lemma markers_witness :
  In Fixture.sell [Fixture.buy; Fixture.sell]
  /\ TradeAction.batchId Fixture.sell = "b1".
Proof.
  exact (proj1 (proj2 (markers_are_actions_of_delivered_batches
                         Fixture.clock "COMI" [Fixture.batchOld]
                         [Fixture.buy; Fixture.sell]))
           "b1" Fixture.sell eq_refl).
Defined.

Lemma app_run_witness :
  Firestore.listeners
    (Dashboard.firestore
       (Dashboard.run Fixture.clock (Dashboard.initial ∅)
          [Dashboard.AppEffect;
           Dashboard.Deliver 0 (Dashboard.StateSnapshot (Some Fixture.state));
           Dashboard.AppCleanup])) !! 3%nat = None.
Proof.
  refine (proj2 (app_run_unsubscribes_all Fixture.clock (Dashboard.initial ∅)
                   [(0%nat, Dashboard.StateSnapshot (Some Fixture.state))]) 3%nat _).
  cbn. lia.
Defined.
